(** * A shallow embedding of [bbo.algorithms.bo.BODesigner]

    The Bayesian-optimisation designer of [src/bbo/algorithms/bo.py]:
    construction ([__attrs_post_init__]), [create_model], [optimize_model],
    [create_acqf], [optimize_acqf] (continuous and NSGA-II paths with the
    batch assembly), [suggest] and [update].

    Python values are embedded as follows.
    - [int] is [Z]; [len] is [length] (a [nat]) injected with [Z.of_nat].
    - a 64-bit float is an element of a type carrying the [Float64]
      operations below; the development is generic in it, and is
      instantiated with the kernel's binary64 floats.
    - a 2-D [ndarray] / tensor is its list of rows, a row is a [list] of
      floats; an [(n, 1)] label array is its column, a [list] of floats.
    - a [dict] is an association list in insertion order.
    - exceptions are the [Raise] outcome of [result]; the process-wide
      random generator and the logger are the two fields of [world],
      threaded by the monad [M]. *)

From Stdlib Require Import String PrimFloat Floats ZArith List Bool Lia.
Import ListNotations.

Set Implicit Arguments.

(** ** Python exceptions and the effect monad *)

Inductive exn : Type :=
| NotImplementedError (msg : string)
| TypeError (msg : string)
| ValueError (msg : string)
| RuntimeError (msg : string)
| IndexError (msg : string)
| KeyError (msg : string)
| OverflowError (msg : string).

Inductive result (A : Type) : Type :=
| Ok (a : A)
| Raise (e : exn).

Arguments Ok {A} a.
Arguments Raise {A} e.

Section Effects.

(** State of the pseudo-random generators (numpy's, torch's and the
    sub-designers' draws all come from here). *)
Variable Rng : Type.

Record world : Type := World {
  rng : Rng;
  log : list string      (* records emitted through [logger.warning] *)
}.

Definition M (A : Type) : Type := world -> result A * world.

Definition ret {A} (a : A) : M A := fun w => (Ok a, w).

Definition bind {A B} (m : M A) (k : A -> M B) : M B :=
  fun w => match m w with
           | (Ok a, w') => k a w'
           | (Raise e, w') => (Raise e, w')
           end.

Definition raise {A} (e : exn) : M A := fun w => (Raise e, w).

Definition lift_result {A} (r : result A) : M A := fun w => (r, w).

(** A draw: a function of the generator state that returns the new state. *)
Definition draw {A} (f : Rng -> A * Rng) : M A :=
  fun w => let (a, g) := f (rng w) in (Ok a, World g (log w)).

Definition logger_warning (msg : string) : M unit :=
  fun w => (Ok tt, World (rng w) (log w ++ [msg])).

End Effects.

Arguments ret {Rng A} a.
Arguments raise {Rng A} e.
Arguments lift_result {Rng A} r.
Arguments logger_warning {Rng} msg.

Declare Scope py_scope.
Delimit Scope py_scope with py.
Notation "x <- m ;; k" := (bind m (fun x => k))
  (at level 100, m at next level, right associativity) : py_scope.
Notation "m ;;; k" := (bind m (fun _ => k))
  (at level 100, right associativity) : py_scope.

(** ** Floats *)

(** The operations the designer performs on float64 values. *)
Class Float64 (F : Type) : Type := {
  f_eqb : F -> F -> bool;        (* [==] *)
  f_leb : F -> F -> bool;        (* [<=] *)
  f_add : F -> F -> F;
  f_sub : F -> F -> F;
  f_mul : F -> F -> F;
  f_div : F -> F -> F;
  f_sqrt : F -> F;
  f_of_nat : nat -> F;           (* an element count, as a float *)
  f_1em6 : F;                    (* the literal [1e-6] *)
  f_float32 : F -> F             (* the value stored as float32 and read back:
                                    [torch.tensor(x)] then [.double()] *)
}.

(** ** numpy *)

Module Np.
Section Np.

Context {F : Type} `{Float64 F}.

Definition row : Type := list F.
Definition ndarray : Type := list row.

Fixpoint map2 {A B C} (f : A -> B -> C) (l1 : list A) (l2 : list B) : list C :=
  match l1, l2 with
  | a :: l1', b :: l2' => f a b :: map2 f l1' l2'
  | _, _ => []
  end.

(** [arr == x], a 1-D [x] broadcast against the rows of [arr]. *)
Definition eq_broadcast (arr : ndarray) (x : row) : list (list bool) :=
  map (fun r => map2 f_eqb r x) arr.

(** [.any()] of a boolean array. *)
Definition any (b : list (list bool)) : bool :=
  existsb (fun r => existsb (fun c => c) r) b.

(** [x in arr]: [ndarray.__contains__] is [(arr == x).any()]. *)
Definition contains (arr : ndarray) (x : row) : bool :=
  any (eq_broadcast arr x).

(** [arr[idx]] for an index array [idx]. *)
Fixpoint take (arr : ndarray) (idx : list nat) : result ndarray :=
  match idx with
  | [] => Ok []
  | i :: idx' =>
      match nth_error arr i with
      | None => Raise (IndexError "index out of bounds")
      | Some r =>
          match take arr idx' with
          | Ok rs => Ok (r :: rs)
          | Raise e => Raise e
          end
      end
  end.

(** [np.vstack] of blocks that all have the same number of columns. *)
Definition vstack (blocks : list ndarray) : ndarray := concat blocks.

(** [np.hstack] / [torch.hstack] of blocks with the same number of rows;
    an empty sequence of blocks is refused, with the library's exception
    [empty]. *)
Definition hstack (empty : exn) (blocks : list ndarray) : result ndarray :=
  match blocks with
  | [] => Raise empty
  | b :: bs => Ok (fold_left (map2 (@app F)) bs b)
  end.

(** [v.unsqueeze(-1)]: a vector as an [(n, 1)] array. *)
Definition unsqueeze_last (v : list F) : ndarray := map (fun y => [y]) v.

(** [v.sum()] is [np.add.reduce]: the accumulator starts at the identity
    [0.] and receives numpy's pairwise sum of the elements, that is
    - below 8 elements, the elements added one by one from [0.];
    - up to 128 elements, eight accumulators that start at the first eight
      elements and receive the following blocks of eight, combined as
      [((r0 + r1) + (r2 + r3)) + ((r4 + r5) + (r6 + r7))], to which the
      last [n mod 8] elements are added one by one;
    - above, the sum of the two halves, the first of [n / 2] elements
      rounded down to a multiple of eight. *)
Fixpoint add_blocks (blocks : nat) (r v : list F) : list F * list F :=
  match blocks with
  | O => (r, v)
  | S blocks' => add_blocks blocks' (map2 f_add r (firstn 8 v)) (skipn 8 v)
  end.

Definition unrolled_sum (v : list F) : F :=
  let '(r, rest) := add_blocks (length v / 8 - 1) (firstn 8 v) (skipn 8 v) in
  match r with
  | [r0; r1; r2; r3; r4; r5; r6; r7] =>
      fold_left f_add rest
        (f_add (f_add (f_add r0 r1) (f_add r2 r3))
               (f_add (f_add r4 r5) (f_add r6 r7)))
  | _ => f_of_nat 0            (* not reached: [v] has 8 elements or more *)
  end.

(** The recursion halves the list; [fuel] bounds its depth, and the length
    of the list is more than enough. *)
Fixpoint pairwise_sum (fuel : nat) (v : list F) : F :=
  if (length v <? 8)%nat then fold_left f_add v (f_of_nat 0)
  else if (length v <=? 128)%nat then unrolled_sum v
  else
    match fuel with
    | O => f_of_nat 0          (* not reached when [fuel = length v] *)
    | S fuel' =>
        let n2 := (length v / 2 - (length v / 2) mod 8)%nat in
        f_add (pairwise_sum fuel' (firstn n2 v)) (pairwise_sum fuel' (skipn n2 v))
    end.

Definition sum (v : list F) : F :=
  f_add (f_of_nat 0) (pairwise_sum (length v) v).

(** [v.mean()] *)
Definition mean (v : list F) : F := f_div (sum v) (f_of_nat (length v)).

(** [v.std()], with numpy's default [ddof=0]. *)
Definition std (v : list F) : F :=
  let m := mean v in
  f_sqrt (mean (map (fun y => f_mul (f_sub y m) (f_sub y m)) v)).

(** [(v - v.mean()) / (v.std() + 1e-6)] *)
Definition standardize (v : list F) : list F :=
  let m := mean v in
  let s := std v in
  map (fun y => f_div (f_sub y m) (f_add s f_1em6)) v.

(** [np.random.choice(n, k, replace=False)]: [k] distinct indices below
    [n], drawn by [sample]. numpy refuses, in this order: an empty
    population unless no sample is taken; a size that does not fit the
    signed 64-bit [np.intp] (with [OverflowError]); a size larger than the
    population; a negative size. (A population is an array length, below
    [2^63]: a size above it is compared with the population first.) *)
Definition random_choice {Rng} (sample : nat -> nat -> Rng -> list nat * Rng)
    (n : nat) (k : Z) : M Rng (list nat) :=
  if ((n =? 0)%nat && negb (k =? 0)%Z)%bool then
    raise (ValueError "a must be greater than 0 unless no samples are taken")
  else if (k <? - 2 ^ 63)%Z then
    raise (OverflowError "Python int too large to convert to C long")
  else if (Z.of_nat n <? k)%Z then
    (if (2 ^ 63 - 1 <? k)%Z then
       raise (OverflowError "Python int too large to convert to C long")
     else
       raise (ValueError "Cannot take a larger sample than population when 'replace=False'"))
  else if (k <? 0)%Z then
    raise (ValueError "negative dimensions are not allowed")
  else draw (sample n (Z.to_nat k)).

End Np.

Arguments row F : clear implicits.
Arguments ndarray F : clear implicits.

End Np.

(** An element count as a binary64 float (exact below [2^53]). *)
Fixpoint float_of_nat (n : nat) : float :=
  match n with
  | O => 0%float
  | S n' => PrimFloat.add (float_of_nat n') 1%float
  end.

(** A binary64 value rounded to the nearest binary32 value (ties to even),
    as a binary64 value: the significand is brought to an integer below
    [2^24] (fewer bits in the subnormal range of binary32, whose quantum is
    [2^-149]), rounded by adding and subtracting [2^52], and what reaches
    [2^128] is infinite. *)
Definition round_float32 (x : float) : float :=
  if (is_nan x || is_infinity x || is_zero x)%bool then x
  else
    let (m, e) := Z.frexp x in
    let qe := Z.max (e - 24) (-149) in
    let v := Z.ldexp x (- qe) in
    let r := if PrimFloat.leb 0 v
             then PrimFloat.sub (PrimFloat.add v 0x1p52) 0x1p52
             else PrimFloat.add (PrimFloat.sub v 0x1p52) 0x1p52 in
    let y := Z.ldexp r qe in
    if PrimFloat.leb 0x1p128 (abs y)
    then (if PrimFloat.leb 0 x then infinity else neg_infinity)
    else y.

(** The kernel's binary64 floats. *)
#[export] Instance prim_Float64 : Float64 float := {
  f_eqb := PrimFloat.eqb;
  f_leb := PrimFloat.leb;
  f_add := PrimFloat.add;
  f_sub := PrimFloat.sub;
  f_mul := PrimFloat.mul;
  f_div := PrimFloat.div;
  f_sqrt := PrimFloat.sqrt;
  f_of_nat := float_of_nat;
  f_1em6 := 0x1.0c6f7a0b5ed8dp-20%float;  (* the binary64 nearest to 1e-6 *)
  f_float32 := round_float32
}.

(** ** Python dictionaries *)

Section Dict.

Variables (K V : Type) (eqb : K -> K -> bool).

Definition dict : Type := list (K * V).

Fixpoint dict_get (d : dict) (k : K) : option V :=
  match d with
  | [] => None
  | (k', v) :: d' => if eqb k' k then Some v else dict_get d' k
  end.

(** [k in d] *)
Definition dict_mem (d : dict) (k : K) : bool :=
  match dict_get d k with Some _ => true | None => false end.

(** [d.get(k, default)] *)
Definition dict_get_default (d : dict) (k : K) (default : V) : V :=
  match dict_get d k with Some v => v | None => default end.

(** [d[k]] *)
Definition dict_getitem (d : dict) (k : K) : result V :=
  match dict_get d k with
  | Some v => Ok v
  | None => Raise (KeyError "key not found")
  end.

End Dict.

(** ** The collaborators' data types *)

(** Modelled from the spec: [SpecType], the declared type of a feature
    group ([bbo.utils.converters.converter]); the source names [DOUBLE]
    only, the other members are the non-continuous parameter types. *)
Inductive SpecType : Type := DOUBLE | INTEGER | CATEGORICAL | DISCRETE.

Definition SpecType_eqb (a b : SpecType) : bool :=
  match a, b with
  | DOUBLE, DOUBLE | INTEGER, INTEGER
  | CATEGORICAL, CATEGORICAL | DISCRETE, DISCRETE => true
  | _, _ => false
  end.

Inductive ObjectiveMetricGoal : Type := MAXIMIZE | MINIMIZE.

(** Modelled from the spec: [Objective], the named metrics with their
    direction; [add_metric] appends, [num_metrics] counts. *)
Definition Objective : Type := list (string * ObjectiveMetricGoal).

Definition add_metric (obj : Objective) (name : string) (goal : ObjectiveMetricGoal)
  : Objective := obj ++ [(name, goal)].

Definition num_metrics (obj : Objective) : Z := Z.of_nat (length obj).

(** [Union[str, List[str]]], told apart by [isinstance(_, list)]. *)
Inductive acqf_type_t : Type :=
| AcqfName (name : string)
| AcqfNames (names : list string).

Open Scope string_scope.
Open Scope list_scope.
Open Scope Z_scope.
Open Scope py_scope.

(** ** Collaborators that live outside [bo.py] *)

Record ProblemStatement (SearchSpace : Type) : Type := {
  search_space : SearchSpace;
  objective : Objective
}.

(** An entry of [converter.output_spec]. *)
Record Spec (F : Type) : Type := {
  spec_type : SpecType;          (* [spec.type] *)
  bounds : F * F
}.

(** [DefaultTrialConverter]: the members [bo.py] consumes. Label arrays
    have shape [(n, 1)] and are given by their column;
    [input_converter_dict] is given by its keys. *)
Record DefaultTrialConverter (F Trial : Type) : Type := {
  output_spec : dict string (Spec F);
  input_converter_dict : list string;
  convert : list Trial -> dict SpecType (Np.ndarray F) * dict string (list F);
  to_features : list Trial -> dict string (Np.ndarray F);
  to_trials : dict SpecType (Np.ndarray F) -> list Trial
}.

(** The interface of everything [bo.py] imports: the types are abstract,
    the functions are fields, and what the theorems need of them is stated
    as hypotheses there. *)
Class Collaborators (F : Type) : Type := {
  Rng : Type;
  Trial : Type;
  SearchSpace : Type;
  Config : Type;

  from_problem : ProblemStatement SearchSpace -> bool -> DefaultTrialConverter F Trial;

  RandomDesigner : Type;
  RandomDesigner_init : ProblemStatement SearchSpace -> RandomDesigner;
  RandomDesigner_suggest : RandomDesigner -> option Z -> Rng -> list Trial * Rng;

  cuda_is_available : bool;
  (* torch.device(s) for a string other than 'cpu': whether torch knows the
     device that s names. *)
  known_device : string -> bool;

  (* The surrogate: gpytorch / botorch objects. Fitting mutates the model
     through the likelihood object that refers to it; here it returns the
     fitted model. *)
  Mean : Type;
  Kernel : Type;
  Model : Type;
  Mll : Type;
  mean_factory : option string -> option Config -> Mean;
  kernel_factory : option string -> option Config -> Kernel;
  SingleTaskGP : Np.ndarray F -> list F -> Kernel -> Mean -> Model;
  register_noise_constraint : Model -> Model;
  ExactMarginalLogLikelihood : Model -> Mll;
  fit_gpytorch_mll : Mll -> Model -> result Model;
  adam_epoch : F -> Mll -> Model -> Np.ndarray F -> list F -> result Model;

  (* Acquisition functions: built by acqf_factory, called on a batch of
     points (a(x.unsqueeze(1)) gives one value per row of x). *)
  Acqf : Type;
  acqf_factory : string -> Model -> Np.ndarray F -> list F -> Acqf;
  acqf_call : Acqf -> Np.ndarray F -> list F;

  (* botorch.optim.optimize.optimize_acqf(acqf, bounds, q, num_restarts,
     raw_samples), first component of its result. *)
  botorch_optimize_acqf :
    Acqf -> list F * list F -> Z -> Z -> Z -> Rng -> result (Np.ndarray F) * Rng;
  (* The same call on a Python list of acquisition functions: botorch draws
     its raw samples, then calls its argument and fails; the generator
     state it leaves. *)
  botorch_draws_on_list :
    list Acqf -> list F * list F -> Z -> Z -> Z -> Rng -> Rng;

  (* NSGAIIDesigner: the state of the object and its four methods. *)
  NSGAII : Type;
  NSGAIIDesigner : ProblemStatement SearchSpace -> Z -> option Z -> NSGAII;
  nsgaii_suggest : NSGAII -> Rng -> (list Trial * NSGAII) * Rng;
  nsgaii_update : NSGAII -> list Trial -> NSGAII;
  nsgaii_result : NSGAII -> Np.ndarray F * Np.ndarray F;
  nsgaii_curr_pop : NSGAII -> Np.ndarray F * Np.ndarray F;

  (* TorchExperimenter: how it reads the points of trials and how it
     stores the measured values in them. *)
  trials_to_tensor : ProblemStatement SearchSpace -> list Trial -> Np.ndarray F;
  complete_trials :
    ProblemStatement SearchSpace -> list Trial -> Np.ndarray F -> list Trial;

  (* The sampler under np.random.choice(_, _, replace=False). *)
  sample : nat -> nat -> Rng -> list nat * Rng
}.

(** ** The designer *)

Section BO.

Context {F : Type} {Fops : Float64 F} {Ext : Collaborators F}.

(** Modelled from the spec: [TorchExperimenter(f, problem).evaluate(trials)]
    (bbo.benchmarks.experimenters.torch_experimenter), which evaluates the
    objective [f] once on the tensor of the trials' points and writes the
    values into the trials. *)
Definition TorchExperimenter_evaluate (f : (Np.ndarray F) -> result (Np.ndarray F))
    (problem : ProblemStatement SearchSpace) (trials : list Trial) : M Rng (list Trial) :=
  y <- lift_result (f (trials_to_tensor problem trials)) ;;
  ret (complete_trials problem trials y).

(** *** The class *)

(** The keyword arguments of the constructor. *)
Record Options : Type := {
  n_init : Z;
  q : Z;
  device : string;
  mean_type : option string;
  mean_config : option Config;
  kernel_type : option string;
  kernel_config : option Config;
  mll_optimizer : string;
  mll_lr : option F;
  mll_epochs : option Z;
  acqf_type : acqf_type_t;
  acqf_optimizer : string;
  acqf_config : dict string Z
}.

(** The [default=] / [factory=] of every keyword attribute. *)
Definition default_options : Options := {|
  n_init := 10;
  q := 1;
  device := "cpu";
  mean_type := None;
  mean_config := None;
  kernel_type := None;
  kernel_config := None;
  mll_optimizer := "l-bfgs";
  mll_lr := None;
  mll_epochs := None;
  acqf_type := AcqfName "qEI";
  acqf_optimizer := "l-bfgs";
  acqf_config := []
|}.

(** The attributes of a constructed designer. *)
Record BODesigner : Type := {
  _problem_statement : ProblemStatement SearchSpace;
  _n_init : Z;
  _q : Z;
  _device : string;
  _mean_type : option string;
  _mean_config : option Config;
  _kernel_type : option string;
  _kernel_config : option Config;
  _mll_optimizer : string;
  _mll_lr : option F;
  _mll_epochs : option Z;
  _acqf_type : acqf_type_t;
  _acqf_optimizer : string;
  _acqf_config : dict string Z;
  _trials : list Trial;
  _init_designer : RandomDesigner;
  _converter : DefaultTrialConverter F Trial;
  _lb : list F;
  _ub : list F
}.

(** **** Validators (attrs runs them in attribute order) *)

Definition str_in (options : list string) (v : string) : bool :=
  existsb (String.eqb v) options.

(** [validators.in_(options)] *)
Definition in_ (options : list string) (v : string) : result unit :=
  if str_in options v then Ok tt
  else Raise (ValueError "value must be in the options").

(** [validators.optional(validators.in_(options))] *)
Definition optional_in_ (options : list string) (v : option string) : result unit :=
  match v with
  | None => Ok tt
  | Some s => in_ options s
  end.

Definition acqf_names : list string := ["qEI"; "qUCB"; "qPI"; "qlogEI"].

(** [validators.or_(in_(names), deep_iterable(in_(names)))]: a list is
    never [in] a list of strings, and passes when each member is a name;
    [deep_iterable] walks a string by its characters. *)
Definition validate_acqf_type (v : acqf_type_t) : result unit :=
  let ok :=
    match v with
    | AcqfName s =>
        str_in acqf_names s
        || forallb (fun c => str_in acqf_names (String c EmptyString))
                   (list_ascii_of_string s)
    | AcqfNames l => forallb (str_in acqf_names) l
    end in
  if ok then Ok tt else Raise (ValueError "None of the validators satisfied").

Definition result_bind {A B} (r : result A) (k : A -> result B) : result B :=
  match r with
  | Ok a => k a
  | Raise e => Raise e
  end.

Definition validate (o : Options) : result unit :=
  result_bind (optional_in_ ["constant"; "mlp"] (mean_type o)) (fun _ =>
  result_bind (optional_in_ ["matern52"; "mlp"; "kumar"] (kernel_type o)) (fun _ =>
  result_bind (in_ ["l-bfgs"; "adam"] (mll_optimizer o)) (fun _ =>
  result_bind (validate_acqf_type (acqf_type o)) (fun _ =>
  in_ ["l-bfgs"; "nsgaii"] (acqf_optimizer o))))).

(** **** [__attrs_post_init__] *)

(** The loop of lines 78-84 over [output_spec.values()]. *)
Fixpoint collect_bounds (specs : list (Spec F)) (lb ub : list F)
  : result (list F * list F) :=
  match specs with
  | [] => Ok (lb, ub)
  | spec :: specs' =>
      if SpecType_eqb (spec_type spec) DOUBLE then
        collect_bounds specs' (lb ++ [fst (bounds spec)]) (ub ++ [snd (bounds spec)])
      else
        Raise (NotImplementedError "Unsupported variable type for BO")
  end.

(** [torch.tensor(lb)] of line 85: a list of Python floats becomes a
    float32 tensor. The attribute is given by the values it holds, which
    are what line 130 reads back with [.double()]. *)
Definition torch_tensor (l : list F) : list F := map f_float32 l.

(** [torch.device(s)] of line 86: ['cpu'] names the CPU device; any other
    string must name a device that torch knows. The device is given by the
    string that names it. *)
Definition torch_device (s : string) : result string :=
  if (s =? "cpu")%string then Ok "cpu"
  else if known_device s then Ok s
  else Raise (RuntimeError "Expected one of cpu, cuda, ... device type at start of device string").

Definition attrs_post_init (problem_statement : ProblemStatement SearchSpace) (o : Options)
  : result BODesigner :=
  let init_designer := RandomDesigner_init problem_statement in
  let converter := from_problem problem_statement true in
  result_bind (collect_bounds (map snd (output_spec converter)) [] [])
    (fun '(lb, ub) =>
  result_bind (torch_device (if cuda_is_available then device o else "cpu"))
    (fun dev =>
       Ok {| _problem_statement := problem_statement;
             _n_init := n_init o;
             _q := q o;
             _device := dev;
             _mean_type := mean_type o;
             _mean_config := mean_config o;
             _kernel_type := kernel_type o;
             _kernel_config := kernel_config o;
             _mll_optimizer := mll_optimizer o;
             _mll_lr := mll_lr o;
             _mll_epochs := mll_epochs o;
             _acqf_type := acqf_type o;
             _acqf_optimizer := acqf_optimizer o;
             _acqf_config := acqf_config o;
             _trials := [];
             _init_designer := init_designer;
             _converter := converter;
             _lb := torch_tensor lb;
             _ub := torch_tensor ub |})).

(** [BODesigner(problem_statement, **options)]: the generated [__init__]
    validates the attributes, then calls [__attrs_post_init__]. *)
Definition BODesigner_new (problem_statement : ProblemStatement SearchSpace) (o : Options)
  : result BODesigner :=
  result_bind (validate o) (fun _ => attrs_post_init problem_statement o).

(** **** [create_model] *)

Definition create_model (self : BODesigner) (train_X : Np.ndarray F)
    (train_Y : list F) : Mll * Model :=
  let mean_module := mean_factory (_mean_type self) (_mean_config self) in
  let covar_module := kernel_factory (_kernel_type self) (_kernel_config self) in
  let model := SingleTaskGP train_X train_Y covar_module mean_module in
  let model := register_noise_constraint model in
  let mll := ExactMarginalLogLikelihood model in
  (mll, model).

(** **** [optimize_model] *)

(** [for _ in range(epochs)] of the Adam branch. *)
Fixpoint adam_loop (epochs : nat) (lr : F) (mll : Mll) (model : Model)
    (train_X : Np.ndarray F) (train_Y : list F) : result Model :=
  match epochs with
  | O => Ok model
  | S n =>
      result_bind (adam_epoch lr mll model train_X train_Y)
        (fun model' => adam_loop n lr mll model' train_X train_Y)
  end.

(** [optim.Adam(_, lr)] of line 104 tests [0.0 <= lr]: a type error for
    [None], and [ValueError] when the test fails (a negative rate, or NaN);
    [range(None)] of line 107 is a type error. *)
Definition optimize_model (self : BODesigner) (mll : Mll) (model : Model)
    (train_X : Np.ndarray F) (train_Y : list F) : result Model :=
  if (_mll_optimizer self =? "l-bfgs")%string then
    fit_gpytorch_mll mll model
  else if (_mll_optimizer self =? "adam")%string then
    match _mll_lr self with
    | None => Raise (TypeError "'<=' not supported between 'float' and 'NoneType'")
    | Some lr =>
        if negb (f_leb (f_of_nat 0) lr) then
          Raise (ValueError "Invalid learning rate")
        else
          match _mll_epochs self with
          | None => Raise (TypeError "'NoneType' object cannot be interpreted as an integer")
          | Some epochs => adam_loop (Z.to_nat epochs) lr mll model train_X train_Y
          end
    end
  else
    Raise (NotImplementedError "").

(** **** [create_acqf] *)

(** What [create_acqf] returns: a Python list of acquisition functions,
    or one acquisition function. *)
Inductive acqf_value : Type :=
| AcqfList (acqf : list Acqf)
| AcqfOne (acqf : Acqf).

Definition create_acqf (self : BODesigner) (model : Model)
    (train_X : Np.ndarray F) (train_Y : list F) : acqf_value :=
  match _acqf_type self with
  | AcqfNames names =>
      AcqfList (map (fun acqf_type => acqf_factory acqf_type model train_X train_Y) names)
  | AcqfName name =>
      AcqfOne (acqf_factory name model train_X train_Y)
  end.

(** **** [optimize_acqf] *)

(** The record of line 144. *)
Definition nsgaii_warning : string :=
  "NSGA-II is a multi-objective optimization algorithm, but only single objective is defined".

(** The objective of lines 138-142. *)
Definition acqf_objective (self : BODesigner) : Objective :=
  match _acqf_type self with
  | AcqfNames names =>
      fold_left (fun obj name => add_metric obj name MAXIMIZE) names []
  | AcqfName name => add_metric [] name MAXIMIZE
  end.

(** The local function [acqf_obj] (lines 151-156). Its [for] statement
    iterates over [acqf]: a list gives its members; an acquisition
    function object is not iterable, and the statement raises. *)
Definition acqf_obj (x : Np.ndarray F) (acqf : acqf_value) : result (Np.ndarray F) :=
  match acqf with
  | AcqfList l =>
      Np.hstack (RuntimeError "hstack expects a non-empty TensorList")
        (map (fun acqf_tmp => Np.unsqueeze_last (acqf_call acqf_tmp x)) l)
  | AcqfOne _ =>
      Raise (TypeError "object is not iterable")
  end.

(** The generations of lines 158-161. *)
Fixpoint nsgaii_loop (epochs : nat) (acqf : acqf_value)
    (problem : ProblemStatement SearchSpace) (nsgaii_designer : NSGAII) : M Rng NSGAII :=
  match epochs with
  | O => ret nsgaii_designer
  | S n =>
      st <- draw (nsgaii_suggest nsgaii_designer) ;;
      trials <- TorchExperimenter_evaluate (fun x => acqf_obj x acqf) problem (fst st) ;;
      nsgaii_loop n acqf problem (nsgaii_update (snd st) trials)
  end.

(** [diff_X] of line 166 (line 167 only fixes the shape of an empty one). *)
Definition diff_X_of (pop_X pareto_X : Np.ndarray F) : Np.ndarray F :=
  filter (fun x => negb (Np.contains pareto_X x)) pop_X.

(** The random fill of lines 180-185. *)
Definition random_fill (self : BODesigner) (quota : Z) : M Rng (Np.ndarray F) :=
  trials <- draw (RandomDesigner_suggest (_init_designer self) (Some quota)) ;;
  let features := to_features (_converter self) trials in
  random_X <- lift_result
    ((fix columns (names : list string) : result (list (Np.ndarray F)) :=
        match names with
        | [] => Ok []
        | name :: names' =>
            result_bind (dict_getitem String.eqb features name) (fun a =>
            result_bind (columns names') (fun r => Ok (a :: r)))
        end) (input_converter_dict (_converter self))) ;;
  lift_result (Np.hstack (ValueError "need at least one array to concatenate") random_X).

(** The batch of lines 164-186, from the Pareto set and the population. *)
Definition next_X_of (self : BODesigner) (pareto_X pop_X : Np.ndarray F)
  : M Rng (Np.ndarray F) :=
  let diff_X := diff_X_of pop_X pareto_X in
  if Z.of_nat (length pareto_X) >=? _q self then
    idx <- Np.random_choice sample (length pareto_X) (_q self) ;;
    lift_result (Np.take pareto_X idx)
  else
    let next_X := [pareto_X] in
    next_X <-
      (if Z.of_nat (length diff_X) >? 0 then
         let quota := Z.min (Z.of_nat (length diff_X))
                            (_q self - Z.of_nat (length pareto_X)) in
         idx <- Np.random_choice sample (length diff_X) quota ;;
         picked <- lift_result (Np.take diff_X idx) ;;
         ret (next_X ++ [picked])
       else ret next_X) ;;
    let quota := _q self - Z.of_nat (length (Np.vstack next_X)) in
    next_X <-
      (if quota >? 0 then
         random_X <- random_fill self quota ;;
         ret (next_X ++ [random_X])
       else ret next_X) ;;
    ret (Np.vstack next_X).

Definition optimize_acqf (self : BODesigner) (acqf : acqf_value)
  : M Rng (Np.ndarray F) :=
  let bounds := (_lb self, _ub self) in
  if (_acqf_optimizer self =? "l-bfgs")%string then
    match acqf with
    | AcqfOne a =>
        fun w =>
          let (r, g) := botorch_optimize_acqf a bounds (_q self) 10 1024 (rng w) in
          (r, World g (log w))
    | AcqfList l =>
        (* botorch draws its raw samples, then calls its argument on them *)
        fun w =>
          (Raise (TypeError "'list' object is not callable"),
           World (botorch_draws_on_list l bounds (_q self) 10 1024 (rng w)) (log w))
    end
  else if (_acqf_optimizer self =? "nsgaii")%string then
    let sp := search_space (_problem_statement self) in
    let obj := acqf_objective self in
    (if num_metrics obj <=? 1 then
       logger_warning nsgaii_warning
     else ret tt) ;;;
    let nsgaii_problem_statement :=
      {| search_space := sp; objective := obj |} in
    let nsgaii_designer :=
      NSGAIIDesigner nsgaii_problem_statement
        (dict_get_default String.eqb (_acqf_config self) "pop_size" 20)
        (dict_get String.eqb (_acqf_config self) "n_offsprings") in
    nsgaii_designer <-
      nsgaii_loop
        (Z.to_nat (dict_get_default String.eqb (_acqf_config self) "epochs" 200))
        acqf nsgaii_problem_statement nsgaii_designer ;;
    let pareto_X := fst (nsgaii_result nsgaii_designer) in
    let pop_X := fst (nsgaii_curr_pop nsgaii_designer) in
    next_X_of self pareto_X pop_X
  else
    raise (NotImplementedError "").

(** **** [suggest] *)

Definition suggest (self : BODesigner) (count : option Z) : M Rng (list Trial) :=
  if Z.of_nat (length (_trials self)) <? _n_init self then
    draw (RandomDesigner_suggest (_init_designer self) count)
  else
    (* [count = count or 1]; [count] is not read below *)
    let count := match count with
                 | Some c => if c =? 0 then 1 else c
                 | None => 1
                 end in
    let (features, labels) := convert (_converter self) (_trials self) in
    let train_X := features in
    if negb (dict_mem SpecType_eqb train_X DOUBLE && (length train_X =? 1)%nat) then
      raise (NotImplementedError "Unsupported variable type for BO")
    else
      train_X <- lift_result (dict_getitem SpecType_eqb train_X DOUBLE) ;;
      (* lines 204-209: the label arrays are (n, 1), so the last axis of
         their concatenation has one entry per metric *)
      train_Y <-
        match map snd labels with
        | [] => raise (ValueError "need at least one array to concatenate")
        | [v] => ret v
        | _ :: _ :: _ => raise (NotImplementedError "Unsupported for multiobjective BO")
        end ;;
      let train_Y := Np.standardize train_Y in
      let (mll, model) := create_model self train_X train_Y in
      model <- lift_result (optimize_model self mll model train_X train_Y) ;;
      let acqf := create_acqf self model train_X train_Y in
      next_X <- optimize_acqf self acqf ;;
      let features := [(DOUBLE, next_X)] in
      ret (to_trials (_converter self) features).

(** **** [update] *)

(** [self._trials.extend(completed)] *)
Definition update (self : BODesigner) (completed : list Trial) : BODesigner :=
  {| _problem_statement := _problem_statement self;
     _n_init := _n_init self;
     _q := _q self;
     _device := _device self;
     _mean_type := _mean_type self;
     _mean_config := _mean_config self;
     _kernel_type := _kernel_type self;
     _kernel_config := _kernel_config self;
     _mll_optimizer := _mll_optimizer self;
     _mll_lr := _mll_lr self;
     _mll_epochs := _mll_epochs self;
     _acqf_type := _acqf_type self;
     _acqf_optimizer := _acqf_optimizer self;
     _acqf_config := _acqf_config self;
     _trials := _trials self ++ completed;
     _init_designer := _init_designer self;
     _converter := _converter self;
     _lb := _lb self;
     _ub := _ub self |}.

(** **** A caller's session *)

(** One call of the public interface. *)
Inductive call : Type :=
| CallSuggest (count : option Z)
| CallUpdate (completed : list Trial).

(** The designer and the world after a call; what [suggest] returns or
    raises goes to the caller. [suggest] assigns no attribute of [self]; it
    hands the History to [converter.convert], which reads it. *)
Definition step (st : BODesigner * world Rng) (c : call) : BODesigner * world Rng :=
  match c with
  | CallSuggest count => (fst st, snd (suggest (fst st) count (snd st)))
  | CallUpdate completed => (update (fst st) completed, snd st)
  end.

Definition run (calls : list call) (st : BODesigner * world Rng)
  : BODesigner * world Rng :=
  fold_left step calls st.

(** The trials passed to [update], in the order of the calls. *)
Definition completed_of (calls : list call) : list Trial :=
  flat_map (fun c => match c with
                     | CallUpdate completed => completed
                     | CallSuggest _ => []
                     end) calls.

(** The sizes of the batches passed to [update]. *)
Definition batch_sizes (calls : list call) : list nat :=
  flat_map (fun c => match c with
                     | CallUpdate completed => [length completed]
                     | CallSuggest _ => []
                     end) calls.

(** **** The set difference in the specification's words *)

(** Two coordinate vectors are the same row. *)
Definition row_equal (r x : Np.row F) : bool :=
  (length r =? length x)%nat && forallb (fun c => c) (Np.map2 f_eqb r x).

(** "Population members that do not occur as rows of [pareto_X]": written
    from the specification, to be compared with [diff_X_of]. *)
Definition diff_X_by_rows (pop_X pareto_X : Np.ndarray F) : Np.ndarray F :=
  filter (fun x => negb (existsb (fun r => row_equal r x) pareto_X)) pop_X.

(** *** What the theorems assume of the collaborators *)

(** A row without NaN and with at least one coordinate. *)
Definition regular (x : Np.row F) : Prop :=
  x <> [] /\ Forall (fun c => f_eqb c c = true) x.

(** What the code relies on from [np.random.choice(n, k, replace=False)]
    when [k <= n]: [k] pairwise distinct indices below [n]. *)
Definition sample_ok : Prop :=
  forall (n k : nat) (g : Rng), (k <= n)%nat ->
    NoDup (fst (sample n k g))
    /\ length (fst (sample n k g)) = k
    /\ Forall (fun i => (i < n)%nat) (fst (sample n k g)).

(** The bootstrap sampler, asked for [quota > 0] trials, gives that many
    rows ([RandomDesigner.suggest] and the converter's [to_features]). *)
Definition random_fill_exact (self : BODesigner) : Prop :=
  forall quota w, 0 < quota ->
    exists X w', random_fill self quota w = (Ok X, w')
                 /\ Z.of_nat (length X) = quota.

(** [lb <= x <= ub], element-wise. *)
Definition in_bounds (lb ub : list F) (x : Np.row F) : Prop :=
  Forall2 (fun l c => f_leb l c = true) lb x
  /\ Forall2 (fun c u => f_leb c u = true) x ub.

(** Contract of [botorch.optim.optimize.optimize_acqf]: [q] points of the
    box. *)
Definition botorch_ok (self : BODesigner) : Prop :=
  forall a q' g X g',
    botorch_optimize_acqf a (_lb self, _ub self) q' 10 1024 g = (Ok X, g') ->
    Z.of_nat (length X) = q'
    /\ Forall (in_bounds (_lb self) (_ub self)) X.




(** Contract of [converter.to_trials]: one trial per row. *)
Definition to_trials_ok (self : BODesigner) : Prop :=
  forall X, length (to_trials (_converter self) [(DOUBLE, X)]) = length X.

(** A model-based call on supported inputs whose collaborators succeed:
    continuous features only, one metric, a surrogate fit that returns, and
    either the continuous optimizer on one acquisition function, returning
    points, or NSGA-II on a non-empty list of acquisition functions with a
    batch size that is a count, a sampler of distinct indices and a
    bootstrap sampler that returns. *)
Definition supported_run (self : BODesigner) : Prop :=
  exists X metric y model',
    convert (_converter self) (_trials self) = ([(DOUBLE, X)], [(metric, y)])
    /\ optimize_model self
         (fst (create_model self X (Np.standardize y)))
         (snd (create_model self X (Np.standardize y)))
         X (Np.standardize y) = Ok model'
    /\ ((_acqf_optimizer self = "l-bfgs"
         /\ (exists name, _acqf_type self = AcqfName name)
         /\ forall a g, exists X' g',
              botorch_optimize_acqf a (_lb self, _ub self) (_q self) 10 1024 g
              = (Ok X', g'))
        \/ (_acqf_optimizer self = "nsgaii"
            /\ (exists name names, _acqf_type self = AcqfNames (name :: names))
            /\ 0 <= _q self
            /\ sample_ok
            /\ random_fill_exact self)).

End BO.

(** * A concrete instance

    Small collaborators over binary64 floats, on which the designer runs:
    a two-dimensional box [[0, 1]^2], trials as (point, metrics) pairs, a
    bootstrap sampler and a continuous optimizer that return the lower
    corner, an evolutionary designer with a fixed population, and a sampler
    that returns the first [k] indices. *)

Module Toy.

Definition trial : Type := (list float * list float)%type.
Definition space : Type := list (float * float).

Definition converter (ps : ProblemStatement space) (merge_by_type : bool)
  : DefaultTrialConverter float trial :=
  {| output_spec :=
       map (fun b => ("x", {| spec_type := DOUBLE; bounds := b |})) (search_space ps);
     input_converter_dict := ["x"];
     convert := fun trials =>
       ([(DOUBLE, map fst trials)],
        [("y", map (fun t => hd 0%float (snd t)) trials)]);
     to_features := fun trials => [("x", map fst trials)];
     to_trials := fun features =>
       match dict_get SpecType_eqb features DOUBLE with
       | Some X => map (fun x => (x, [])) X
       | None => []
       end |}.

Definition random_suggest (d : space) (count : option Z) (g : nat)
  : list trial * nat :=
  (repeat (map fst d, []) (Z.to_nat (match count with Some c => c | None => 1 end)),
   S g).

Definition botorch (a : string) (box : list float * list float)
    (q num_restarts raw_samples : Z) (g : nat) : result (Np.ndarray float) * nat :=
  if q <? 0 then (Raise (ValueError "q must be non-negative"), g)
  else (Ok (repeat (fst box) (Z.to_nat q)), S g).

Definition pareto : Np.ndarray float := [[0.25; 0.5]]%float.
Definition population : Np.ndarray float :=
  [[0.25; 0.5]; [0.75; 0.125]; [0.5; 0.75]]%float.

(** The collaborators, parameterized by the converter factory. *)
Definition collaborators_with
    (from_problem : ProblemStatement space -> bool -> DefaultTrialConverter float trial)
  : Collaborators float :=
  {| Rng := nat;
     Trial := trial;
     SearchSpace := space;
     Config := unit;
     from_problem := from_problem;
     RandomDesigner := space;
     RandomDesigner_init := fun ps => search_space ps;
     RandomDesigner_suggest := random_suggest;
     cuda_is_available := false;
     known_device := fun s => (s =? "cuda")%string;
     Mean := unit;
     Kernel := unit;
     Model := unit;
     Mll := unit;
     mean_factory := fun _ _ => tt;
     kernel_factory := fun _ _ => tt;
     SingleTaskGP := fun _ _ _ _ => tt;
     register_noise_constraint := fun m => m;
     ExactMarginalLogLikelihood := fun _ => tt;
     fit_gpytorch_mll := fun _ m => Ok m;
     adam_epoch := fun _ _ m _ _ => Ok m;
     Acqf := string;
     acqf_factory := fun name _ _ _ => name;
     acqf_call := fun _ x => map (fun _ => 0%float) x;
     botorch_optimize_acqf := botorch;
     botorch_draws_on_list := fun _ _ _ _ _ g => S g;
     NSGAII := nat;
     NSGAIIDesigner := fun _ _ _ => O;
     nsgaii_suggest := fun d g => ((map (fun x => (x, [])) population, d), S g);
     nsgaii_update := fun d _ => S d;
     nsgaii_result := fun _ => (pareto, []);
     nsgaii_curr_pop := fun _ => (population, []);
     trials_to_tensor := fun _ trials => map fst trials;
     complete_trials := fun _ trials y => Np.map2 (fun t r => (fst t, r)) trials y;
     sample := fun n k g => (seq 0 k, S g) |}.

#[export] Instance collaborators : Collaborators float := collaborators_with converter.

Definition problem : ProblemStatement space :=
  {| search_space := [(0, 1); (0, 1)]%float;
     objective := [("y", MAXIMIZE)] |}.

(** The keyword arguments that the examples vary. *)
Definition options_for
    (from_problem : ProblemStatement space -> bool -> DefaultTrialConverter float trial)
    (n_init q : Z) (acqf_type : acqf_type_t) (acqf_optimizer : string)
    (acqf_config : dict string Z) : Options (Ext:=collaborators_with from_problem) :=
  {| n_init := n_init; q := q; device := "cpu";
     mean_type := None; mean_config := None;
     kernel_type := None; kernel_config := None;
     mll_optimizer := "l-bfgs"; mll_lr := None; mll_epochs := None;
     acqf_type := acqf_type; acqf_optimizer := acqf_optimizer;
     acqf_config := acqf_config |}.

Definition options : Z -> Z -> acqf_type_t -> string -> dict string Z
                     -> Options (Ext:=collaborators) :=
  options_for converter.

(** A designer with the converter [c], the options [o] and the History
    [trials]. *)
Definition designer_with (c : DefaultTrialConverter float trial)
    (o : Options (Ext:=collaborators)) (trials : list trial)
  : BODesigner (Ext:=collaborators) :=
  {| _problem_statement := problem;
     _n_init := n_init o; _q := q o; _device := "cpu";
     _mean_type := mean_type o; _mean_config := mean_config o;
     _kernel_type := kernel_type o; _kernel_config := kernel_config o;
     _mll_optimizer := mll_optimizer o; _mll_lr := mll_lr o;
     _mll_epochs := mll_epochs o;
     _acqf_type := acqf_type o; _acqf_optimizer := acqf_optimizer o;
     _acqf_config := acqf_config o;
     _trials := trials;
     _init_designer := search_space problem;
     _converter := c;
     _lb := [0; 0]%float;
     _ub := [1; 1]%float |}.

(** The designer constructed from [o], after [trials] were updated. *)
Definition designer (o : Options (Ext:=collaborators)) (trials : list trial)
  : BODesigner (Ext:=collaborators) :=
  designer_with (converter problem true) o trials.

Definition history : list trial :=
  [([0.25; 0.75], [1]); ([0.5; 0.125], [3])]%float.

(** Ten completed trials. *)
Definition ten_trials : list trial :=
  repeat ([0.25; 0.75], [1])%float 8 ++ history.

Definition w0 : world nat := World O [].

(** A converter that reports an integer parameter next to the continuous
    ones, and a second metric. *)
Definition mixed_converter : DefaultTrialConverter float trial :=
  {| output_spec :=
       [("x", {| spec_type := DOUBLE; bounds := (0, 1)%float |});
        ("n", {| spec_type := INTEGER; bounds := (0, 8)%float |})];
     input_converter_dict := ["x"; "n"];
     convert := fun trials =>
       ([(DOUBLE, map fst trials); (INTEGER, map fst trials)],
        [("y", map (fun t => hd 0%float (snd t)) trials);
         ("z", map (fun t => hd 0%float (snd t)) trials)]);
     to_features := fun trials => [("x", map fst trials); ("n", map fst trials)];
     to_trials := fun features => [] |}.

(** The collaborators of a problem with an integer parameter. *)
Definition mixed_collaborators : Collaborators float :=
  collaborators_with (fun _ _ => mixed_converter).

Definition two_metric_converter : DefaultTrialConverter float trial :=
  {| output_spec := output_spec (converter problem true);
     input_converter_dict := ["x"];
     convert := fun trials =>
       ([(DOUBLE, map fst trials)],
        [("y", map (fun t => hd 0%float (snd t)) trials);
         ("z", map (fun t => hd 0%float (snd t)) trials)]);
     to_features := fun trials => [("x", map fst trials)];
     to_trials := to_trials (converter problem true) |}.

(** A designer whose surrogate is fitted with Adam, with the History
    [history]. *)
Definition adam_designer (lr : option float) (epochs : option Z)
  : BODesigner (Ext:=collaborators) :=
  {| _problem_statement := problem;
     _n_init := 2; _q := 1; _device := "cpu";
     _mean_type := None; _mean_config := None;
     _kernel_type := None; _kernel_config := None;
     _mll_optimizer := "adam"; _mll_lr := lr; _mll_epochs := epochs;
     _acqf_type := AcqfName "qEI"; _acqf_optimizer := "l-bfgs";
     _acqf_config := [];
     _trials := history;
     _init_designer := search_space problem;
     _converter := converter problem true;
     _lb := [0; 0]%float;
     _ub := [1; 1]%float |}.

(** A problem whose first lower bound, [0.7], is not a float32 value. *)
Definition shifted_problem : ProblemStatement space :=
  {| search_space := [(0x1.6666666666666p-1, 1)]%float;
     objective := [("y", MAXIMIZE)] |}.



(** The collaborators on a machine with CUDA. *)
Definition cuda_collaborators : Collaborators float :=
  {| Rng := nat;
     Trial := trial;
     SearchSpace := space;
     Config := unit;
     from_problem := converter;
     RandomDesigner := space;
     RandomDesigner_init := fun ps => search_space ps;
     RandomDesigner_suggest := random_suggest;
     cuda_is_available := true;
     known_device := fun s => (s =? "cuda")%string;
     Mean := unit;
     Kernel := unit;
     Model := unit;
     Mll := unit;
     mean_factory := fun _ _ => tt;
     kernel_factory := fun _ _ => tt;
     SingleTaskGP := fun _ _ _ _ => tt;
     register_noise_constraint := fun m => m;
     ExactMarginalLogLikelihood := fun _ => tt;
     fit_gpytorch_mll := fun _ m => Ok m;
     adam_epoch := fun _ _ m _ _ => Ok m;
     Acqf := string;
     acqf_factory := fun name _ _ _ => name;
     acqf_call := fun _ x => map (fun _ => 0%float) x;
     botorch_optimize_acqf := botorch;
     botorch_draws_on_list := fun _ _ _ _ _ g => S g;
     NSGAII := nat;
     NSGAIIDesigner := fun _ _ _ => O;
     nsgaii_suggest := fun d g => ((map (fun x => (x, [])) population, d), S g);
     nsgaii_update := fun d _ => S d;
     nsgaii_result := fun _ => (pareto, []);
     nsgaii_curr_pop := fun _ => (population, []);
     trials_to_tensor := fun _ trials => map fst trials;
     complete_trials := fun _ trials y => Np.map2 (fun t r => (fst t, r)) trials y;
     sample := fun n k g => (seq 0 k, S g) |}.

(** A converter that reports no metric. *)
Definition no_metric_converter : DefaultTrialConverter float trial :=
  {| output_spec := output_spec (converter problem true);
     input_converter_dict := ["x"];
     convert := fun trials => ([(DOUBLE, map fst trials)], []);
     to_features := fun trials => [("x", map fst trials)];
     to_trials := to_trials (converter problem true) |}.

End Toy.

(** * Notions used by the further properties *)

Section FurtherDefs.

Context {F : Type} {Fops : Float64 F} {Ext : Collaborators F}.

(** The acquisition names that a configuration holds: the members of a
    list, or the one name. *)
Definition names_of (t : acqf_type_t) : list string :=
  match t with
  | AcqfName name => [name]
  | AcqfNames names => names
  end.

(** From every world, the computation [m] appends exactly [records] to the
    log, whether it returns or raises. *)
Definition logs {A} (m : M Rng A) (records : list string) : Prop :=
  forall w, log (snd (m w)) = log w ++ records.

(** One generation of lines 159-161 on a non-empty list of acquisition
    functions, written out: the NSGA-II designer suggests trials, each
    acquisition function is evaluated on their points, the values are
    stored in the trials as one column per function, and the designer that
    made the suggestion is updated with them. *)
Definition generation (a : Acqf) (l : list Acqf)
    (problem : ProblemStatement SearchSpace) (st : NSGAII * Rng) : NSGAII * Rng :=
  let '((trials, d), g) := nsgaii_suggest (fst st) (snd st) in
  let x := trials_to_tensor problem trials in
  let y := fold_left (Np.map2 (@app F))
             (map (fun b => Np.unsqueeze_last (acqf_call b x)) l)
             (Np.unsqueeze_last (acqf_call a x)) in
  (nsgaii_update d (complete_trials problem trials y), g).

(** An array of [n] rows and [k] columns. *)
Definition shape (n k : nat) (a : Np.ndarray F) : Prop :=
  length a = n /\ Forall (fun r => length r = k) a.

End FurtherDefs.

(** * Properties *)

Section Properties.

Context {F : Type} {Fops : Float64 F} {Ext : Collaborators F}.

(** ** The effect monad *)

Lemma bind_ok_inv {A B} (m : M Rng A) (k : A -> M Rng B) w b w' :
  bind m k w = (Ok b, w') ->
  exists a w1, m w = (Ok a, w1) /\ k a w1 = (Ok b, w').
Proof.
  unfold bind. destruct (m w) as [[a|e] w1]; intros E.
  - exists a, w1. split; [reflexivity | exact E].
  - discriminate E.
Qed.

Lemma bind_ok_intro {A B} (m : M Rng A) (k : A -> M Rng B) w a w1 :
  m w = (Ok a, w1) -> bind m k w = k a w1.
Proof. unfold bind. intros ->. reflexivity. Qed.

Lemma lift_result_ok_inv {A} (r : result A) (w : world Rng) a w' :
  lift_result r w = (Ok a, w') -> r = Ok a /\ w' = w.
Proof. unfold lift_result. intros E. inversion E. split; reflexivity. Qed.

(** ** numpy *)

(** [arr[idx]] succeeds exactly on indices below [len(arr)], and returns
    the rows at these indices, in the order of [idx]. *)
Lemma take_in_range (arr : Np.ndarray F) idx :
  Forall (fun i => (i < length arr)%nat) idx ->
  exists rows, Np.take arr idx = Ok rows
               /\ Forall2 (fun i r => nth_error arr i = Some r) idx rows.
Proof.
  induction 1 as [|i idx Hi _ IH].
  - exists []. split; [reflexivity | constructor].
  - destruct IH as (rows & E & H2).
    destruct (nth_error arr i) as [r|] eqn:En.
    + exists (r :: rows). cbn. rewrite En, E. split; [reflexivity|].
      constructor; assumption.
    + apply nth_error_None in En. lia.
Qed.

Lemma take_ok_inv (arr : Np.ndarray F) idx rows :
  Np.take arr idx = Ok rows ->
  Forall2 (fun i r => nth_error arr i = Some r) idx rows.
Proof.
  revert rows. induction idx as [|i idx IH]; cbn; intros rows E.
  - inversion E. constructor.
  - destruct (nth_error arr i) as [r|] eqn:En; [|discriminate].
    destruct (Np.take arr idx) as [rs|e]; [|discriminate].
    inversion E; subst. constructor; auto.
Qed.

Lemma rows_at_length (arr : Np.ndarray F) idx rows :
  Forall2 (fun i r => nth_error arr i = Some r) idx rows ->
  length rows = length idx.
Proof. induction 1; cbn; congruence. Qed.

Lemma rows_at_In (arr : Np.ndarray F) idx rows :
  Forall2 (fun i r => nth_error arr i = Some r) idx rows ->
  Forall (fun r => In r arr) rows.
Proof.
  induction 1; constructor; auto. eapply nth_error_In; eauto.
Qed.

(** [x in arr] holds as soon as one coordinate of [x] equals the
    coordinate of some row of [arr] in the same column. *)
Lemma contains_iff (arr : Np.ndarray F) (x : Np.row F) :
  Np.contains arr x = true <->
  exists r, In r arr /\ existsb (fun c => c) (Np.map2 f_eqb r x) = true.
Proof.
  unfold Np.contains, Np.any, Np.eq_broadcast.
  rewrite existsb_exists. split.
  - intros (b & Hb & Hx). apply in_map_iff in Hb as (r & <- & Hr). eauto.
  - intros (r & Hr & Hx). exists (Np.map2 f_eqb r x). split; [|exact Hx].
    apply in_map_iff. eauto.
Qed.

Lemma contains_self (arr : Np.ndarray F) (x : Np.row F) :
  regular x -> In x arr -> Np.contains arr x = true.
Proof.
  intros [Hne Hrefl] Hin. apply contains_iff. exists x. split; [exact Hin|].
  destruct x as [|c x]; [congruence|]. cbn.
  inversion Hrefl as [|? ? Hc _]; subst. rewrite Hc. reflexivity.
Qed.

(** ** Batch assembly (lines 164-186) *)

Lemma random_choice_ok (n : nat) (k : Z) (w : world Rng) :
  0 <= k <= Z.of_nat n ->
  Np.random_choice sample n k w =
    (Ok (fst (sample n (Z.to_nat k) (rng w))),
     World (snd (sample n (Z.to_nat k) (rng w))) (log w)).
Proof.
  intros Hk. unfold Np.random_choice.
  assert (Hfirst : ((n =? 0)%nat && negb (k =? 0))%bool = false).
  { destruct (Nat.eqb_spec n 0); [|reflexivity].
    destruct (Z.eqb_spec k 0); [reflexivity | lia]. }
  rewrite Hfirst.
  destruct (Z.ltb_spec k (- 2 ^ 63)); [lia|].
  destruct (Z.ltb_spec (Z.of_nat n) k); [lia|].
  destruct (Z.ltb_spec k 0); [lia|].
  unfold draw. destruct (sample n (Z.to_nat k) (rng w)); reflexivity.
Qed.

Lemma diff_X_of_In (pop_X pareto_X : Np.ndarray F) (x : Np.row F) :
  In x (diff_X_of pop_X pareto_X) <->
  In x pop_X /\ Np.contains pareto_X x = false.
Proof.
  unfold diff_X_of. rewrite filter_In, negb_true_iff. reflexivity.
Qed.

Lemma diff_X_of_disjoint (pop_X pareto_X : Np.ndarray F) (x : Np.row F) :
  regular x -> In x pareto_X -> ~ In x (diff_X_of pop_X pareto_X).
Proof.
  intros Hx Hin Hd. apply diff_X_of_In in Hd as [_ Hc].
  assert (Np.contains pareto_X x = true) by (apply contains_self; assumption).
  congruence.
Qed.

(** C3. When the Pareto set has at least [q] members (and [q] is a count,
    [0 <= q]), the batch is [pareto_X[idx]] for the [q] distinct indices
    [idx] that [np.random.choice] drew: exactly [q] rows, each a row of
    [pareto_X]; the only draw made is that one (the bootstrap sampler is not
    called), and no row of the batch is a row of [diff_X]. *)
Theorem next_X_from_pareto (self : BODesigner) (pareto_X pop_X : Np.ndarray F)
    (w : world Rng) :
  sample_ok ->
  0 <= _q self <= Z.of_nat (length pareto_X) ->
  let idx := fst (sample (length pareto_X) (Z.to_nat (_q self)) (rng w)) in
  let g' := snd (sample (length pareto_X) (Z.to_nat (_q self)) (rng w)) in
  exists batch,
    next_X_of self pareto_X pop_X w = (Ok batch, World g' (log w))
    /\ Np.take pareto_X idx = Ok batch
    /\ NoDup idx
    /\ Forall2 (fun i r => nth_error pareto_X i = Some r) idx batch
    /\ Z.of_nat (length batch) = _q self
    /\ Forall (fun x => In x pareto_X) batch
    /\ (Forall regular pareto_X ->
        Forall (fun x => ~ In x (diff_X_of pop_X pareto_X)) batch).
Proof.
  intros Hs Hq idx g'.
  destruct (Hs (length pareto_X) (Z.to_nat (_q self)) (rng w)) as (Hnd & Hlen & Hlt);
    [lia|].
  fold idx in Hnd, Hlen, Hlt.
  destruct (take_in_range pareto_X Hlt) as (batch & Etake & Hrows).
  exists batch.
  assert (Hin : Forall (fun x => In x pareto_X) batch)
    by (eapply rows_at_In; eassumption).
  repeat split; try assumption.
  - unfold next_X_of.
    destruct (Z.geb_spec (Z.of_nat (length pareto_X)) (_q self)); [|lia].
    erewrite bind_ok_intro by (apply random_choice_ok; lia).
    fold idx g'. unfold lift_result. rewrite Etake. reflexivity.
  - rewrite (rows_at_length _ Hrows), Hlen. lia.
  - intros Hreg. rewrite Forall_forall in *. intros x Hx.
    apply diff_X_of_disjoint; auto.
Qed.


(** ** The model-based branch of [suggest] *)

Lemma random_choice_ok_inv (n : nat) (k : Z) (w : world Rng) idx w' :
  Np.random_choice sample n k w = (Ok idx, w') ->
  0 <= k <= Z.of_nat n
  /\ idx = fst (sample n (Z.to_nat k) (rng w)).
Proof.
  unfold Np.random_choice.
  destruct ((n =? 0)%nat && negb (k =? 0))%bool; [discriminate|].
  destruct (Z.ltb_spec k (- 2 ^ 63)); [discriminate|].
  destruct (Z.ltb_spec (Z.of_nat n) k);
    [destruct (2 ^ 63 - 1 <? k); discriminate|].
  destruct (Z.ltb_spec k 0); [discriminate|].
  unfold draw. destruct (sample n (Z.to_nat k) (rng w)); intros E.
  inversion E. split; [lia | reflexivity].
Qed.




(** What a returned batch of the model-based branch is. *)
Lemma suggest_ok_inv (self : BODesigner) (count : option Z) (w : world Rng) ret w' :
  _n_init self <= Z.of_nat (length (_trials self)) ->
  suggest self count w = (Ok ret, w') ->
  exists acqf w1 next_X,
    optimize_acqf self acqf w1 = (Ok next_X, w')
    /\ ret = to_trials (_converter self) [(DOUBLE, next_X)].
Proof.
  intros Hstate. unfold suggest.
  destruct (Z.ltb_spec (Z.of_nat (length (_trials self))) (_n_init self)); [lia|].
  destruct (convert (_converter self) (_trials self)) as [features labels].
  destruct (negb _); [discriminate|].
  intros E. apply bind_ok_inv in E as (train_X & w1 & _ & E).
  apply bind_ok_inv in E as (train_Y & w2 & _ & E).
  destruct (create_model self train_X (Np.standardize train_Y)) as [mll model].
  apply bind_ok_inv in E as (model' & w3 & _ & E).
  apply bind_ok_inv in E as (next_X & w4 & Eopt & E).
  inversion E; subst ret w4; clear E.
  eexists _, _, next_X. split; [exact Eopt | reflexivity].
Qed.

(** With a list of at least one acquisition function, every generation
    evaluates and the loop returns. *)
Lemma nsgaii_loop_returns (epochs : nat) (a : Acqf) (l : list Acqf)
    (problem : ProblemStatement SearchSpace) (d : NSGAII) (w : world Rng) :
  exists d' w', nsgaii_loop epochs (AcqfList (a :: l)) problem d w = (Ok d', w').
Proof.
  revert d w. induction epochs as [|n IH]; intros d w.
  - eexists _, _. reflexivity.
  - cbn [nsgaii_loop]. unfold bind at 1, draw.
    destruct (nsgaii_suggest d (rng w)) as [[trials d1] g].
    unfold bind at 1, TorchExperimenter_evaluate, bind at 1, lift_result.
    cbn [acqf_obj map Np.hstack fst snd]. unfold ret at 1.
    apply IH.
Qed.

(** With a batch size that is a count and a bootstrap sampler that returns,
    the assembly returns a batch. *)
Lemma next_X_of_returns (self : BODesigner) (pareto_X pop_X : Np.ndarray F)
    (w : world Rng) :
  sample_ok -> random_fill_exact self -> 0 <= _q self ->
  exists X w', next_X_of self pareto_X pop_X w = (Ok X, w').
Proof.
  intros Hs Hfill Hq. unfold next_X_of.
  set (diff_X := diff_X_of pop_X pareto_X).
  destruct (Z.geb_spec (Z.of_nat (length pareto_X)) (_q self)) as [Hge|Hlt].
  - erewrite bind_ok_intro by (apply random_choice_ok; lia).
    destruct (Hs (length pareto_X) (Z.to_nat (_q self)) (rng w)) as (_ & _ & Hidx);
      [lia|].
    destruct (take_in_range pareto_X Hidx) as (rows & Et & _).
    unfold lift_result. rewrite Et. eexists _, _. reflexivity.
  - assert (Hdiv : exists blocks w1,
      (if Z.of_nat (length diff_X) >? 0 then
         idx <- Np.random_choice sample (length diff_X)
                  (Z.min (Z.of_nat (length diff_X))
                         (_q self - Z.of_nat (length pareto_X))) ;;
         picked <- lift_result (Np.take diff_X idx) ;;
         ret ([pareto_X] ++ [picked])
       else ret [pareto_X]) w = (Ok blocks, w1)).
    { destruct (Z.gtb_spec (Z.of_nat (length diff_X)) 0) as [Hpos|Hzero].
      - set (k := Z.min (Z.of_nat (length diff_X))
                        (_q self - Z.of_nat (length pareto_X))).
        assert (Hk : 0 <= k <= Z.of_nat (length diff_X)) by (unfold k; lia).
        erewrite bind_ok_intro by (apply random_choice_ok; exact Hk).
        destruct (Hs (length diff_X) (Z.to_nat k) (rng w)) as (_ & _ & Hidx); [lia|].
        destruct (take_in_range diff_X Hidx) as (picked & Et & _).
        unfold bind, lift_result, ret. rewrite Et. eexists _, _. reflexivity.
      - eexists _, _. reflexivity. }
    destruct Hdiv as (blocks & w1 & Ediv).
    erewrite bind_ok_intro by exact Ediv.
    destruct (Z.gtb_spec (_q self - Z.of_nat (length (Np.vstack blocks))) 0)
      as [Hrem|Hrem].
    + destruct (Hfill _ w1 Hrem) as (R & w2 & ER & _).
      unfold bind at 1. unfold bind at 1. rewrite ER.
      eexists _, _. reflexivity.
    + eexists _, _. reflexivity.
Qed.

(** On supported inputs whose collaborators succeed, the model-based
    [suggest] returns. *)
Lemma suggest_returns (self : BODesigner) (count : option Z) (w : world Rng) :
  _n_init self <= Z.of_nat (length (_trials self)) ->
  supported_run self ->
  exists ret w', suggest self count w = (Ok ret, w').
Proof.
  intros Hstate (X & metric & y & model' & Hc & Hfit & Hpath). unfold suggest.
  destruct (Z.ltb_spec (Z.of_nat (length (_trials self))) (_n_init self)); [lia|].
  rewrite Hc. cbn [dict_mem dict_get SpecType_eqb length Nat.eqb andb negb
                   dict_getitem map snd].
  unfold bind at 1. unfold lift_result at 1.
  unfold bind at 1. unfold ret at 1.
  destruct (create_model self X (Np.standardize y)) as [mll model].
  cbn [fst snd] in Hfit.
  unfold bind at 1. unfold lift_result at 1. rewrite Hfit.
  assert (Hopt : exists next_X w1,
            optimize_acqf self (create_acqf self model' X (Np.standardize y)) w
            = (Ok next_X, w1)).
  { unfold optimize_acqf, create_acqf.
    destruct Hpath as [(Ho & (name & Ha) & Hb)
                      | (Ho & (name & names & Ha) & Hq & Hs & Hfill)];
      rewrite Ho, Ha; cbn [String.eqb Ascii.eqb Bool.eqb].
    - destruct (Hb (acqf_factory name model' X (Np.standardize y)) (rng w))
        as (X' & g' & Eb).
      rewrite Eb. eexists _, _. reflexivity.
    - cbn [map].
      assert (Hwarn : exists w1,
                (if num_metrics (acqf_objective self) <=? 1
                 then logger_warning nsgaii_warning else ret tt) w = (Ok tt, w1)).
      { destruct (num_metrics (acqf_objective self) <=? 1);
          eexists; reflexivity. }
      destruct Hwarn as (w1 & Ew).
      erewrite bind_ok_intro by exact Ew.
      match goal with
      | |- context [nsgaii_loop ?n (AcqfList (?a :: ?l)) ?ps ?d] =>
          destruct (nsgaii_loop_returns n a l ps d w1) as (d' & w2 & El)
      end.
      erewrite bind_ok_intro by exact El.
      apply next_X_of_returns; assumption. }
  destruct Hopt as (next_X & w1 & Eopt).
  unfold bind. rewrite Eopt. eexists _, _. reflexivity.
Qed.


(** ** Unsupported inputs *)

Lemma SpecType_eqb_eq (a b : SpecType) : SpecType_eqb a b = true <-> a = b.
Proof. destruct a, b; cbn; split; congruence. Qed.

(** A feature dictionary that holds a group of another type than [DOUBLE]
    fails the test of line 200. *)
Lemma features_rejected (V : Type) (features : dict SpecType V) (t : SpecType) :
  t <> DOUBLE ->
  dict_mem SpecType_eqb features t = true ->
  dict_mem SpecType_eqb features DOUBLE && (length features =? 1)%nat = false.
Proof.
  intros Ht Hmem.
  destruct features as [|[k v] [|kv features]]; cbn in *.
  - discriminate.
  - unfold dict_mem in *. cbn in *.
    destruct (SpecType_eqb k t) eqn:E1; [|discriminate].
    destruct (SpecType_eqb k DOUBLE) eqn:E2; [|reflexivity].
    apply SpecType_eqb_eq in E1, E2. congruence.
  - apply andb_false_r.
Qed.

(** C7. In the model-based state, [suggest] raises
    [NotImplementedError('Unsupported variable type for BO')] whenever the
    converter's features hold a group that is not [DOUBLE], and raises
    (that error, or [NotImplementedError('Unsupported for multiobjective
    BO')] when the features are accepted) whenever the labels hold two or
    more metrics; in both cases for every [count] and every state of the
    random generator, before any draw or log record. *)
Theorem suggest_rejects_unsupported (self : BODesigner) (count : option Z)
    (w : world Rng) :
  _n_init self <= Z.of_nat (length (_trials self)) ->
  let features := fst (convert (_converter self) (_trials self)) in
  let labels := snd (convert (_converter self) (_trials self)) in
  (forall t, t <> DOUBLE -> dict_mem SpecType_eqb features t = true ->
     suggest self count w
     = (Raise (NotImplementedError "Unsupported variable type for BO"), w))
  /\ ((2 <= length labels)%nat ->
      suggest self count w
      = (Raise (NotImplementedError
                  (if dict_mem SpecType_eqb features DOUBLE
                      && (length features =? 1)%nat
                   then "Unsupported for multiobjective BO"
                   else "Unsupported variable type for BO")), w)).
Proof.
  intros Hstate features labels. unfold suggest.
  destruct (Z.ltb_spec (Z.of_nat (length (_trials self))) (_n_init self)); [lia|].
  subst features labels.
  destruct (convert (_converter self) (_trials self)) as [features labels].
  cbn [fst snd]. split.
  - intros t Ht Hmem. rewrite (features_rejected _ Ht Hmem). reflexivity.
  - intros Hlabels.
    destruct (dict_mem SpecType_eqb features DOUBLE && (length features =? 1)%nat)
      eqn:Hfeat; cbn [negb]; [|reflexivity].
    apply andb_prop in Hfeat as [Hmem _].
    unfold dict_mem in Hmem. unfold dict_getitem.
    destruct (dict_get SpecType_eqb features DOUBLE) as [X|]; [|discriminate].
    destruct labels as [|[m1 v1] [|[m2 v2] labels]]; cbn in Hlabels; try lia.
    reflexivity.
Qed.

(** ** History *)

Lemma step_trials (st : BODesigner * world Rng) (c : call) :
  _trials (fst (step st c))
  = _trials (fst st) ++ completed_of [c].
Proof.
  destruct c; cbn; rewrite app_nil_r; reflexivity.
Qed.

Lemma run_trials (calls : list call) (st : BODesigner * world Rng) :
  _trials (fst (run calls st)) = _trials (fst st) ++ completed_of calls.
Proof.
  revert st. induction calls as [|c calls IH]; intros st.
  - cbn. rewrite app_nil_r. reflexivity.
  - change (run (c :: calls) st) with (run calls (step st c)).
    rewrite IH, step_trials. cbn [completed_of flat_map].
    rewrite app_nil_r, app_assoc. reflexivity.
Qed.

Lemma completed_of_length (calls : list call) :
  length (completed_of calls) = list_sum (batch_sizes calls).
Proof.
  induction calls as [|[count|completed] calls IH];
    cbn [completed_of batch_sizes flat_map app list_sum fold_right].
  - reflexivity.
  - exact IH.
  - fold (completed_of calls). fold (batch_sizes calls).
    rewrite length_app, IH. reflexivity.
Qed.

(** C8. [update] appends its argument to the History as it is, [suggest]
    leaves the History unchanged whether it returns or raises; so after any
    session of [suggest] and [update] calls the History is the initial one
    followed by the updated batches in call order, and its length grows by
    the sum of the batch sizes. *)
Theorem history_is_appended (self : BODesigner) (w : world Rng) (calls : list call) :
  (forall completed, _trials (update self completed) = _trials self ++ completed)
  /\ (forall count, _trials (fst (step (self, w) (CallSuggest count))) = _trials self)
  /\ _trials (fst (run calls (self, w))) = _trials self ++ completed_of calls
  /\ length (_trials (fst (run calls (self, w))))
     = (length (_trials self) + list_sum (batch_sizes calls))%nat.
Proof.
  repeat split.
  - apply run_trials.
  - rewrite run_trials, length_app, completed_of_length. reflexivity.
Qed.

(** ** Construction *)

Lemma collect_bounds_ok (specs : list (Spec F)) (lb ub : list F) :
  Forall (fun spec => spec_type spec = DOUBLE) specs ->
  collect_bounds specs lb ub
  = Ok (lb ++ map (fun spec => fst (bounds spec)) specs,
        ub ++ map (fun spec => snd (bounds spec)) specs).
Proof.
  intros H. revert lb ub. induction H as [|spec specs Hd _ IH]; intros lb ub; cbn.
  - rewrite !app_nil_r. reflexivity.
  - rewrite Hd. cbn. rewrite IH, <- !app_assoc. reflexivity.
Qed.

Lemma collect_bounds_raise (specs : list (Spec F)) (lb ub : list F) :
  (exists spec, In spec specs /\ spec_type spec <> DOUBLE) ->
  collect_bounds specs lb ub
  = Raise (NotImplementedError "Unsupported variable type for BO").
Proof.
  intros (bad & Hin & Hbad). revert lb ub.
  induction specs as [|spec specs IH]; intros lb ub; [contradiction|]. cbn.
  destruct (SpecType_eqb (spec_type spec) DOUBLE) eqn:E; [|reflexivity].
  apply SpecType_eqb_eq in E. destruct Hin as [->|Hin]; [contradiction|].
  apply IH. exact Hin.
Qed.

Lemma all_double_dec (specs : list (Spec F)) :
  Forall (fun spec => spec_type spec = DOUBLE) specs
  \/ exists spec, In spec specs /\ spec_type spec <> DOUBLE.
Proof.
  induction specs as [|spec specs [IH|(bad & Hin & Hbad)]].
  - left. constructor.
  - destruct (SpecType_eqb (spec_type spec) DOUBLE) eqn:E.
    + apply SpecType_eqb_eq in E. left. constructor; assumption.
    + right. exists spec. split; [left; reflexivity|].
      intros H. apply SpecType_eqb_eq in H. congruence.
  - right. exists bad. split; [right; exact Hin | exact Hbad].
Qed.

Lemma torch_device_ok_inv (s d : string) : torch_device s = Ok d -> d = s.
Proof.
  unfold torch_device. destruct (String.eqb_spec s "cpu") as [->|_].
  - intros E. inversion E. reflexivity.
  - destruct (known_device s); [|discriminate]. intros E. inversion E. reflexivity.
Qed.

Lemma new_ok_inv (problem_statement : ProblemStatement SearchSpace) (o : Options) self :
  BODesigner_new problem_statement o = Ok self ->
  let converter := from_problem problem_statement true in
  let specs := map snd (output_spec converter) in
  Forall (fun spec => spec_type spec = DOUBLE) specs
  /\ self = {| _problem_statement := problem_statement;
               _n_init := n_init o;
               _q := q o;
               _device := if cuda_is_available then device o else "cpu";
               _mean_type := mean_type o;
               _mean_config := mean_config o;
               _kernel_type := kernel_type o;
               _kernel_config := kernel_config o;
               _mll_optimizer := mll_optimizer o;
               _mll_lr := mll_lr o;
               _mll_epochs := mll_epochs o;
               _acqf_type := acqf_type o;
               _acqf_optimizer := acqf_optimizer o;
               _acqf_config := acqf_config o;
               _trials := [];
               _init_designer := RandomDesigner_init problem_statement;
               _converter := converter;
               _lb := torch_tensor (map (fun spec => fst (bounds spec)) specs);
               _ub := torch_tensor (map (fun spec => snd (bounds spec)) specs) |}.
Proof.
  intros E converter specs. unfold BODesigner_new in E.
  destruct (validate o); [|discriminate]. cbn [result_bind] in E.
  unfold attrs_post_init in E. fold converter specs in E.
  destruct (all_double_dec specs) as [Hall|Hbad].
  - split; [exact Hall|].
    rewrite (collect_bounds_ok [] [] Hall) in E. cbn [result_bind app] in E.
    destruct (torch_device (if cuda_is_available then device o else "cpu"))
      as [dev|e] eqn:Ed; [|discriminate].
    apply torch_device_ok_inv in Ed. subst dev. cbn [result_bind] in E.
    inversion E. reflexivity.
  - rewrite (collect_bounds_raise _ [] [] Hbad) in E. discriminate.
Qed.

(** C9. If the converter's output spec has an entry that is not [DOUBLE],
    [__attrs_post_init__] raises [NotImplementedError] and the construction
    yields no designer. A constructed designer therefore has [DOUBLE]
    entries only, an empty History, and [lb], [ub] derived from the lower
    and upper bounds of the entries in order, as [torch.tensor] stores
    them: each bound rounded to float32; [update] does not change them. *)
Theorem construction_requires_continuous (problem_statement : ProblemStatement SearchSpace)
    (o : Options) :
  let specs := map snd (output_spec (from_problem problem_statement true)) in
  ((exists spec, In spec specs /\ spec_type spec <> DOUBLE) ->
     attrs_post_init problem_statement o
     = Raise (NotImplementedError "Unsupported variable type for BO")
     /\ exists e, BODesigner_new problem_statement o = Raise e)
  /\ (forall self, BODesigner_new problem_statement o = Ok self ->
        Forall (fun spec => spec_type spec = DOUBLE) specs
        /\ _lb self = map (fun spec => f_float32 (fst (bounds spec))) specs
        /\ _ub self = map (fun spec => f_float32 (snd (bounds spec))) specs
        /\ _trials self = []
        /\ forall completed,
             _lb (update self completed) = _lb self
             /\ _ub (update self completed) = _ub self).
Proof.
  intros specs. split.
  - intros Hbad.
    assert (Epost : attrs_post_init problem_statement o
                    = Raise (NotImplementedError "Unsupported variable type for BO")).
    { unfold attrs_post_init. fold specs.
      rewrite (collect_bounds_raise _ [] [] Hbad). reflexivity. }
    split; [exact Epost|].
    unfold BODesigner_new. destruct (validate o) as [u|e]; cbn [result_bind].
    + rewrite Epost. eexists. reflexivity.
    + exists e. reflexivity.
  - intros self E. apply new_ok_inv in E as [Hall ->].
    cbn [_lb _ub _trials update]. unfold torch_tensor. fold specs.
    rewrite !map_map. repeat split. exact Hall.
Qed.

(** ** Defaults *)

Lemma update_nil (self : BODesigner) : update self [] = self.
Proof. destruct self. unfold update. cbn. rewrite app_nil_r. reflexivity. Qed.

Lemma update_update (self : BODesigner) (a b : list Trial) :
  update (update self a) b = update self (a ++ b).
Proof. unfold update. cbn. rewrite app_assoc. reflexivity. Qed.

(** A session changes the designer by its updates only. *)
Lemma run_designer (calls : list call) (self : BODesigner) (w : world Rng) :
  fst (run calls (self, w)) = update self (completed_of calls).
Proof.
  revert self w. induction calls as [|c calls IH]; intros self w.
  - cbn. symmetry. apply update_nil.
  - change (run (c :: calls) (self, w)) with (run calls (step (self, w) c)).
    destruct c as [count|completed]; cbn [step fst snd].
    + rewrite IH. reflexivity.
    + rewrite IH, update_update. reflexivity.
Qed.

(** C10. The defaults are [n_init = 10], [q = 1], device ['cpu'],
    acquisition ['qEI'], and ['l-bfgs'] for both optimizers. A designer
    built with them keeps them through any session; while fewer than 10
    trials have been updated its [suggest] is the bootstrap sampler's; from
    10 trials on its acquisition optimizer is the continuous one, every
    batch [suggest] returns holds one trial, and on supported inputs whose
    collaborators succeed [suggest] does return one. *)
Theorem default_designer (problem_statement : ProblemStatement SearchSpace) (self : BODesigner)
    (calls : list call) (w : world Rng) :
  BODesigner_new problem_statement default_options = Ok self ->
  botorch_ok self ->
  to_trials_ok self ->
  let self' := fst (run calls (self, w)) in
  (n_init default_options = 10 /\ q default_options = 1
   /\ device default_options = "cpu"
   /\ acqf_type default_options = AcqfName "qEI"
   /\ mll_optimizer default_options = "l-bfgs"
   /\ acqf_optimizer default_options = "l-bfgs")
  /\ (_n_init self' = 10 /\ _q self' = 1 /\ _device self' = "cpu"
      /\ _acqf_type self' = AcqfName "qEI"
      /\ _mll_optimizer self' = "l-bfgs"
      /\ _acqf_optimizer self' = "l-bfgs")
  /\ _trials self' = completed_of calls
  /\ (forall count w1,
        (length (completed_of calls) < 10)%nat ->
        suggest self' count w1
        = draw (RandomDesigner_suggest (RandomDesigner_init problem_statement) count) w1)
  /\ (forall a w1,
        optimize_acqf self' (AcqfOne a) w1
        = (fst (botorch_optimize_acqf a (_lb self, _ub self) 1 10 1024 (rng w1)),
           World (snd (botorch_optimize_acqf a (_lb self, _ub self) 1 10 1024 (rng w1)))
                 (log w1)))
  /\ (forall count w1 ret w2,
        (10 <= length (completed_of calls))%nat ->
        suggest self' count w1 = (Ok ret, w2) ->
        length ret = 1%nat)
  /\ (forall count w1,
        (10 <= length (completed_of calls))%nat ->
        supported_run self' ->
        exists ret w2,
          suggest self' count w1 = (Ok ret, w2) /\ length ret = 1%nat).
Proof.
  intros Enew Hb Ht self'.
  assert (Eself : self' = update self (completed_of calls)) by apply run_designer.
  apply new_ok_inv in Enew as [_ Enew].
  assert (Hf : _n_init self = 10 /\ _q self = 1 /\ _device self = "cpu"
               /\ _acqf_type self = AcqfName "qEI"
               /\ _mll_optimizer self = "l-bfgs"
               /\ _acqf_optimizer self = "l-bfgs"
               /\ _trials self = []
               /\ _init_designer self = RandomDesigner_init problem_statement).
  { rewrite Enew. cbn. destruct cuda_is_available; repeat split. }
  clear Enew. destruct Hf as (Hn & Hq & Hd & Ha & Hm & Ho & Htr & Hi).
  split; [repeat split|].
  split; [rewrite Eself; cbn; repeat split; assumption|].
  split; [rewrite Eself; cbn; rewrite Htr; reflexivity|].
  assert (Hopt : forall a w1,
            optimize_acqf self' (AcqfOne a) w1
            = (fst (botorch_optimize_acqf a (_lb self, _ub self) 1 10 1024 (rng w1)),
               World (snd (botorch_optimize_acqf a (_lb self, _ub self) 1 10 1024 (rng w1)))
                     (log w1))).
  { intros a w1. rewrite Eself. unfold optimize_acqf. cbn.
    rewrite Ho, Hq. cbn.
    destruct (botorch_optimize_acqf _ _ _ _ _ _). reflexivity. }
  assert (Hstate : (10 <= length (completed_of calls))%nat ->
                   _n_init self' <= Z.of_nat (length (_trials self'))).
  { intros Hlen. rewrite Eself. cbn. rewrite Hn, Htr. cbn [app]. lia. }
  assert (Hone : forall count w1 ret w2,
            (10 <= length (completed_of calls))%nat ->
            suggest self' count w1 = (Ok ret, w2) ->
            length ret = 1%nat);
    [|split; [|split; [exact Hopt|split; [exact Hone|]]]].
  3:{ intros count w1 Hlen Hsup.
      destruct (suggest_returns count w1 (Hstate Hlen) Hsup) as (ret & w2 & E).
      exists ret, w2. split; [exact E | exact (Hone _ _ _ _ Hlen E)]. }
  2:{ intros count w1 Hlen. rewrite Eself. unfold suggest. cbn.
      rewrite Hn, Htr, Hi. cbn [app].
      destruct (Z.ltb_spec (Z.of_nat (length (completed_of calls))) 10); [|lia].
      reflexivity. }
  - intros count w1 ret w2 Hlen E.
    apply suggest_ok_inv in E as (acqf & w3 & next_X & Eopt & ->).
    + assert (Hlen1 : Z.of_nat (length next_X) = 1).
      { destruct acqf as [l|a].
        - rewrite Eself in Eopt. unfold optimize_acqf in Eopt. cbn in Eopt.
          rewrite Ho in Eopt. cbn in Eopt. discriminate.
        - rewrite Hopt in Eopt.
          destruct (botorch_optimize_acqf a (_lb self, _ub self) 1 10 1024 (rng w3))
            as [r g] eqn:Eb.
          cbn in Eopt. inversion Eopt; subst r w2.
          apply Hb in Eb as [Hlen1 _]. exact Hlen1. }
      rewrite Eself. cbn. rewrite Ht. lia.
    + exact (Hstate Hlen).
Qed.

(** ** A single acquisition type under NSGA-II *)

(** With one acquisition function (not a list) and at least one
    generation, the NSGA-II path logs its warning and then raises in the
    first evaluation, where [acqf_obj] iterates over the acquisition
    function. *)
Lemma optimize_acqf_single_raises (self : BODesigner) (name : string) (a : Acqf)
    (w : world Rng) :
  _acqf_optimizer self = "nsgaii" ->
  _acqf_type self = AcqfName name ->
  0 < dict_get_default String.eqb (_acqf_config self) "epochs" 200 ->
  exists g,
    optimize_acqf self (AcqfOne a) w
    = (Raise (TypeError "object is not iterable"),
       World g (log w ++ [nsgaii_warning])).
Proof.
  intros Ho Ha He. unfold optimize_acqf. rewrite Ho. cbn [String.eqb Ascii.eqb Bool.eqb].
  unfold acqf_objective. rewrite Ha. cbn [add_metric app].
  change (num_metrics [(name, MAXIMIZE)] <=? 1) with true. cbv iota.
  unfold bind at 1. unfold logger_warning at 1. cbv beta iota.
  destruct (Z.to_nat (dict_get_default String.eqb (_acqf_config self) "epochs" 200))
    as [|n] eqn:En; [lia|].
  cbn [nsgaii_loop]. unfold bind at 1. unfold bind at 1. unfold draw.
  cbn [rng log].
  destruct (nsgaii_suggest _ _) as [[trials d] g].
  exists g. unfold bind, TorchExperimenter_evaluate, lift_result. cbn.
  reflexivity.
Qed.

(** C5 (as the code behaves). In the model-based state, with
    [acqf_optimizer = 'nsgaii'], a single acquisition type, a positive
    number of generations, supported features and a single metric, and a
    surrogate fit that succeeds, [suggest] logs the warning and then raises
    [TypeError]: it returns no batch. *)
Theorem suggest_nsgaii_single_acqf_raises (self : BODesigner) (name : string)
    (count : option Z) (w : world Rng) (X : Np.ndarray F) (metric : string)
    (y : list F) (model' : Model) :
  _n_init self <= Z.of_nat (length (_trials self)) ->
  _acqf_optimizer self = "nsgaii" ->
  _acqf_type self = AcqfName name ->
  0 < dict_get_default String.eqb (_acqf_config self) "epochs" 200 ->
  convert (_converter self) (_trials self) = ([(DOUBLE, X)], [(metric, y)]) ->
  optimize_model self (fst (create_model self X (Np.standardize y)))
                 (snd (create_model self X (Np.standardize y)))
                 X (Np.standardize y) = Ok model' ->
  exists g,
    suggest self count w
    = (Raise (TypeError "object is not iterable"),
       World g (log w ++ [nsgaii_warning])).
Proof.
  intros Hstate Ho Ha He Hc Hfit. unfold suggest.
  destruct (Z.ltb_spec (Z.of_nat (length (_trials self))) (_n_init self)); [lia|].
  rewrite Hc. cbn [dict_mem dict_get SpecType_eqb length Nat.eqb andb negb
                   dict_getitem map snd].
  unfold bind at 1. unfold lift_result at 1.
  unfold bind at 1. unfold ret at 1.
  destruct (create_model self X (Np.standardize y)) as [mll model] eqn:Ecm.
  cbn [fst snd] in Hfit.
  unfold bind at 1. unfold lift_result at 1. rewrite Hfit.
  unfold create_acqf. rewrite Ha.
  destruct (optimize_acqf_single_raises self (acqf_factory name model' X (Np.standardize y))
              w Ho Ha He) as [g Eg].
  exists g. unfold bind. rewrite Eg. reflexivity.
Qed.

(** ** The set difference of line 166 *)

(** What line 166 keeps: the rows of the population that share no
    coordinate, column by column, with any row of the Pareto set. *)
Lemma diff_X_of_spec (pop_X pareto_X : Np.ndarray F) (x : Np.row F) :
  In x (diff_X_of pop_X pareto_X) <->
  In x pop_X
  /\ forall r, In r pareto_X ->
       existsb (fun c => c) (Np.map2 f_eqb r x) = false.
Proof.
  rewrite diff_X_of_In. split; intros [Hin H]; (split; [exact Hin|]).
  - intros r Hr. destruct (existsb _ _) eqn:E; [|reflexivity].
    assert (Np.contains pareto_X x = true) by (apply contains_iff; eauto).
    congruence.
  - destruct (Np.contains pareto_X x) eqn:E; [|reflexivity].
    apply contains_iff in E as (r & Hr & E). rewrite (H r Hr) in E. discriminate.
Qed.

Lemma row_equal_shares (r x : Np.row F) :
  x <> [] -> row_equal r x = true ->
  existsb (fun c => c) (Np.map2 f_eqb r x) = true.
Proof.
  unfold row_equal. intros Hx H. apply andb_prop in H as [Hlen Hall].
  destruct x as [|c x]; [congruence|]. destruct r as [|d r]; [discriminate|].
  cbn in *. apply andb_prop in Hall as [-> _]. reflexivity.
Qed.

(** Line 166 drops every row that the specification's difference drops
    (and possibly more): its result is included in the latter. *)
Lemma diff_X_of_incl (pop_X pareto_X : Np.ndarray F) (x : Np.row F) :
  x <> [] ->
  In x (diff_X_of pop_X pareto_X) -> In x (diff_X_by_rows pop_X pareto_X).
Proof.
  intros Hx H. apply diff_X_of_spec in H as [Hin H].
  unfold diff_X_by_rows. apply filter_In. split; [exact Hin|].
  apply negb_true_iff. destruct (existsb _ pareto_X) eqn:E; [|reflexivity].
  apply existsb_exists in E as (r & Hr & E).
  specialize (H r Hr). rewrite (row_equal_shares r Hx E) in H. discriminate.
Qed.

End Properties.

(** * Further properties of the designer *)

Section Further.

Context {F : Type} {Fops : Float64 F} {Ext : Collaborators F}.

(** ** The validators of the keyword attributes (lines 39-69) *)

Lemma str_in_In (options : list string) (v : string) :
  str_in options v = true <-> In v options.
Proof.
  unfold str_in. rewrite existsb_exists. split.
  - intros (x & Hin & Heq). apply String.eqb_eq in Heq. subst x. exact Hin.
  - intros Hin. exists v. split; [exact Hin | apply String.eqb_refl].
Qed.

Lemma in_ok_iff (options : list string) (v : string) :
  in_ options v = Ok tt <-> In v options.
Proof.
  unfold in_. rewrite <- str_in_In.
  destruct (str_in options v); split; intros H; try reflexivity; discriminate.
Qed.

Lemma optional_in_ok_iff (options : list string) (v : option string) :
  optional_in_ options v = Ok tt <-> (forall s, v = Some s -> In s options).
Proof.
  destruct v as [s|]; cbn [optional_in_].
  - rewrite in_ok_iff. split.
    + intros H s' E. inversion E; subst; exact H.
    + intros H. apply H. reflexivity.
  - split; [intros _ s E; discriminate | reflexivity].
Qed.

(** No one-character string is an acquisition name. *)
Lemma char_not_acqf_name (c : Ascii.ascii) :
  str_in acqf_names (String c EmptyString) = false.
Proof.
  unfold str_in, acqf_names. cbn [existsb String.eqb].
  destruct (Ascii.eqb c _); reflexivity.
Qed.

Lemma validate_acqf_type_ok_iff (v : acqf_type_t) :
  validate_acqf_type v = Ok tt <->
  match v with
  | AcqfName s => In s acqf_names \/ s = ""
  | AcqfNames l => Forall (fun n => In n acqf_names) l
  end.
Proof.
  unfold validate_acqf_type. destruct v as [s|l].
  - destruct s as [|c s].
    + cbn. split; [intros _; right; reflexivity | reflexivity].
    + cbn [list_ascii_of_string forallb]. rewrite char_not_acqf_name.
      cbn [andb]. rewrite orb_false_r.
      destruct (str_in acqf_names (String c s)) eqn:E.
      * split; [intros _; left; apply str_in_In; exact E | reflexivity].
      * split; [discriminate|]. intros [H|H]; [|discriminate].
        apply str_in_In in H. congruence.
  - destruct (forallb (str_in acqf_names) l) eqn:E.
    + split; [|reflexivity]. intros _. rewrite forallb_forall in E.
      apply Forall_forall. intros n Hn. apply str_in_In. auto.
    + split; [discriminate|]. intros H. rewrite Forall_forall in H.
      assert (forallb (str_in acqf_names) l = true); [|congruence].
      apply forallb_forall. intros n Hn. apply str_in_In. auto.
Qed.

Lemma result_bind_ok_iff {A B} (r : result A) (k : A -> result B) (b : B) :
  result_bind r k = Ok b <-> exists a, r = Ok a /\ k a = Ok b.
Proof.
  destruct r as [a|e]; cbn.
  - split; [intros H; exists a; auto | intros (a' & E & H); inversion E; subst; exact H].
  - split; [discriminate | intros (a' & E & _); discriminate].
Qed.

(** X2. The validators accept a configuration exactly when: the mean and
    kernel types, if given, and the two optimizers are among the listed
    names, and the acquisition type is a listed name, or a list of listed
    names (the empty list included), or the empty string (over which
    [deep_iterable] finds no member to refuse). Every refusal is a
    [ValueError]. *)
Theorem validate_accepts (o : Options) :
  (validate o = Ok tt <->
     (forall s, mean_type o = Some s -> In s ["constant"; "mlp"])
     /\ (forall s, kernel_type o = Some s -> In s ["matern52"; "mlp"; "kumar"])
     /\ In (mll_optimizer o) ["l-bfgs"; "adam"]
     /\ match acqf_type o with
        | AcqfName s => In s acqf_names \/ s = ""
        | AcqfNames l => Forall (fun n => In n acqf_names) l
        end
     /\ In (acqf_optimizer o) ["l-bfgs"; "nsgaii"])
  /\ (forall e, validate o = Raise e -> exists msg, e = ValueError msg).
Proof.
  split.
  - unfold validate.
    rewrite <- !optional_in_ok_iff, <- !in_ok_iff, <- validate_acqf_type_ok_iff.
    rewrite result_bind_ok_iff. split.
    + intros ([] & H1 & H). apply result_bind_ok_iff in H as ([] & H2 & H).
      apply result_bind_ok_iff in H as ([] & H3 & H).
      apply result_bind_ok_iff in H as ([] & H4 & H5). auto.
    + intros (H1 & H2 & H3 & H4 & H5). exists tt. split; [exact H1|].
      rewrite H2. cbn. rewrite H3. cbn. rewrite H4. cbn. exact H5.
  - intros e. unfold validate, optional_in_, in_, validate_acqf_type.
    repeat match goal with
           | |- context [match ?x with Some _ => _ | None => _ end] => destruct x
           | |- context [if ?b then _ else _] => destruct b
           end; cbn; intros E; try discriminate; inversion E; eexists; reflexivity.
Qed.

(** ** Construction (lines 29-86) *)

(** X3. The constructor yields a designer exactly when the validators
    accept the keyword arguments, every entry of the converter's output
    spec is [DOUBLE], and the device is one that [torch.device] accepts:
    ['cpu'] (always the case without CUDA, whatever device was asked for)
    or a string naming a device torch knows. A refusal of the validators
    is what the constructor raises, whatever the search space is; with
    accepted arguments an entry that is not [DOUBLE] gives
    [NotImplementedError]; and with continuous entries only, a device
    string that torch does not know gives [RuntimeError]. *)
Theorem construction_outcome (problem_statement : ProblemStatement SearchSpace)
    (o : Options) :
  let specs := map snd (output_spec (from_problem problem_statement true)) in
  let dev := if cuda_is_available then device o else "cpu" in
  ((exists self, BODesigner_new problem_statement o = Ok self) <->
     validate o = Ok tt
     /\ Forall (fun spec => spec_type spec = DOUBLE) specs
     /\ (dev = "cpu" \/ known_device dev = true))
  /\ (forall e, validate o = Raise e -> BODesigner_new problem_statement o = Raise e)
  /\ (validate o = Ok tt ->
      (exists spec, In spec specs /\ spec_type spec <> DOUBLE) ->
      BODesigner_new problem_statement o
      = Raise (NotImplementedError "Unsupported variable type for BO"))
  /\ (validate o = Ok tt ->
      Forall (fun spec => spec_type spec = DOUBLE) specs ->
      dev <> "cpu" -> known_device dev = false ->
      exists msg, BODesigner_new problem_statement o = Raise (RuntimeError msg)).
Proof.
  intros specs dev. unfold BODesigner_new, attrs_post_init. fold specs dev.
  split; [split | split; [|split]].
  - intros (self & E). destruct (validate o) as [[]|e]; [|discriminate].
    split; [reflexivity|]. cbn [result_bind] in E.
    destruct (all_double_dec specs) as [Hall|Hbad].
    + split; [exact Hall|].
      rewrite (collect_bounds_ok [] [] Hall) in E. cbn [result_bind app] in E.
      unfold torch_device in E.
      destruct (String.eqb_spec dev "cpu") as [Hd|Hd]; [left; exact Hd|].
      destruct (known_device dev); [right; reflexivity | discriminate].
    + rewrite (collect_bounds_raise _ [] [] Hbad) in E. discriminate.
  - intros (Hv & Hall & Hdev). rewrite Hv. cbn [result_bind].
    rewrite (collect_bounds_ok [] [] Hall). cbn [result_bind app].
    unfold torch_device.
    destruct (String.eqb_spec dev "cpu") as [Hd|Hd]; [eexists; reflexivity|].
    destruct Hdev as [Hdev|Hdev]; [contradiction|]. rewrite Hdev.
    eexists. reflexivity.
  - intros e Hv. rewrite Hv. reflexivity.
  - intros Hv Hbad. rewrite Hv. cbn [result_bind].
    rewrite (collect_bounds_raise _ [] [] Hbad). reflexivity.
  - intros Hv Hall Hd Hk. rewrite Hv. cbn [result_bind].
    rewrite (collect_bounds_ok [] [] Hall). cbn [result_bind app].
    unfold torch_device.
    destruct (String.eqb_spec dev "cpu") as [Hd'|_]; [contradiction|].
    rewrite Hk. eexists. reflexivity.
Qed.

(** X4. A constructed designer, after any session of [suggest] and
    [update] calls, still has its two optimizers among the names that
    [optimize_model] and [optimize_acqf] dispatch on, a mean and a kernel
    type among the listed ones, bound vectors [lb] and [ub] with one entry
    per entry of the output spec, and the device ['cpu'] whenever CUDA is
    not available, whatever device was asked for. *)
Theorem constructed_configuration (problem_statement : ProblemStatement SearchSpace)
    (o : Options) (self : BODesigner) (calls : list call) (w : world Rng) :
  BODesigner_new problem_statement o = Ok self ->
  let self' := fst (run calls (self, w)) in
  (_mll_optimizer self' = "l-bfgs" \/ _mll_optimizer self' = "adam")
  /\ (_acqf_optimizer self' = "l-bfgs" \/ _acqf_optimizer self' = "nsgaii")
  /\ (forall s, _mean_type self' = Some s -> In s ["constant"; "mlp"])
  /\ (forall s, _kernel_type self' = Some s -> In s ["matern52"; "mlp"; "kumar"])
  /\ length (_lb self') = length (output_spec (_converter self'))
  /\ length (_ub self') = length (output_spec (_converter self'))
  /\ (cuda_is_available = false -> _device self' = "cpu").
Proof.
  intros Hnew self'.
  assert (Hv : validate o = Ok tt).
  { unfold BODesigner_new in Hnew. destruct (validate o) as [[]|e];
      [reflexivity | discriminate]. }
  apply (proj1 (validate_accepts o)) in Hv as (Hm & Hk & Hmo & _ & Hao).
  apply new_ok_inv in Hnew as [_ Hself].
  unfold self'. rewrite run_designer. subst self. cbn. unfold torch_tensor.
  rewrite !length_map. repeat split; try assumption; try reflexivity.
  - cbn in Hmo. intuition congruence.
  - cbn in Hao. intuition congruence.
  - intros ->. reflexivity.
Qed.

(** ** The two states of the designer (lines 192-195, 226-227) *)

(** X5. A session changes the designer through its [update] calls only:
    afterwards the designer is the initial one with the updated trials
    appended, so [n_init] is unchanged and the History never shrinks. Hence
    a designer that is model-based stays model-based; and as long as the
    History holds fewer than [n_init] trials, [suggest] is the bootstrap
    sampler's answer for the caller's [count]: it returns, logs nothing and
    consults neither the converter nor a model. *)
Theorem session_state_machine (self : BODesigner) (calls : list call)
    (w : world Rng) :
  let self' := fst (run calls (self, w)) in
  self' = update self (completed_of calls)
  /\ _n_init self' = _n_init self
  /\ (length (_trials self) <= length (_trials self'))%nat
  /\ (_n_init self <= Z.of_nat (length (_trials self)) ->
      _n_init self' <= Z.of_nat (length (_trials self')))
  /\ (Z.of_nat (length (_trials self) + length (completed_of calls)) < _n_init self ->
      forall count w1,
        suggest self' count w1
        = (Ok (fst (RandomDesigner_suggest (_init_designer self) count (rng w1))),
           World (snd (RandomDesigner_suggest (_init_designer self) count (rng w1)))
                 (log w1))).
Proof.
  intros self'. unfold self'. rewrite run_designer. cbn [update _n_init _trials].
  rewrite length_app. repeat split; try lia.
  intros Hlt count w1. unfold suggest. cbn [update _n_init _trials _init_designer].
  rewrite length_app.
  destruct (Z.ltb_spec (Z.of_nat (length (_trials self) + length (completed_of calls)))
              (_n_init self)); [|lia].
  unfold draw. destruct (RandomDesigner_suggest _ _ _). reflexivity.
Qed.

(** ** Fitting the surrogate with Adam (lines 103-114) *)

Lemma adam_loop_app (n m : nat) (lr : F) (mll : Mll) (model : Model)
    (X : Np.ndarray F) (Y : list F) :
  adam_loop (n + m) lr mll model X Y
  = result_bind (adam_loop n lr mll model X Y)
      (fun model' => adam_loop m lr mll model' X Y).
Proof.
  revert model. induction n as [|n IH]; intros model; cbn [adam_loop Nat.add result_bind].
  - reflexivity.
  - destruct (adam_epoch lr mll model X Y) as [model'|e]; cbn [result_bind];
      [apply IH | reflexivity].
Qed.

(** X6. With [mll_optimizer = 'adam'], [optimize_model] raises
    [TypeError] when [mll_lr] is [None] (the default), [ValueError] when
    the test [0.0 <= mll_lr] of [optim.Adam] fails (a negative rate, or
    NaN), whatever [mll_epochs] is, and [TypeError] when the rate is
    accepted and [mll_epochs] is [None] (the default). With an accepted
    rate and a number of epochs it runs the epochs one after the other, so
    training for [n + m] epochs is training for [n] and then for [m] from
    the model reached; a failing epoch ends the call with its exception,
    however many epochs were asked for beyond it; and a number of epochs
    that is zero or negative returns the model as it is. *)
Theorem optimize_model_adam (self : BODesigner) (mll : Mll) (model : Model)
    (X : Np.ndarray F) (Y : list F) :
  _mll_optimizer self = "adam" ->
  (_mll_lr self = None ->
   exists msg, optimize_model self mll model X Y = Raise (TypeError msg))
  /\ (forall lr, _mll_lr self = Some lr -> f_leb (f_of_nat 0) lr = false ->
        exists msg, optimize_model self mll model X Y = Raise (ValueError msg))
  /\ (forall lr, _mll_lr self = Some lr -> f_leb (f_of_nat 0) lr = true ->
        _mll_epochs self = None ->
        exists msg, optimize_model self mll model X Y = Raise (TypeError msg))
  /\ (forall lr epochs, _mll_lr self = Some lr -> f_leb (f_of_nat 0) lr = true ->
        _mll_epochs self = Some epochs ->
        optimize_model self mll model X Y
        = adam_loop (Z.to_nat epochs) lr mll model X Y
        /\ (epochs <= 0 -> optimize_model self mll model X Y = Ok model))
  /\ (forall lr n m,
        adam_loop (n + m) lr mll model X Y
        = result_bind (adam_loop n lr mll model X Y)
            (fun model' => adam_loop m lr mll model' X Y))
  /\ (forall lr n m e, (n <= m)%nat ->
        adam_loop n lr mll model X Y = Raise e ->
        adam_loop m lr mll model X Y = Raise e).
Proof.
  intros Ho. unfold optimize_model. rewrite Ho. cbn [String.eqb Ascii.eqb Bool.eqb].
  split; [|split; [|split; [|split; [|split]]]].
  - intros Hl. rewrite Hl. eexists. reflexivity.
  - intros lr Hl Hneg. rewrite Hl, Hneg. eexists. reflexivity.
  - intros lr Hl Hpos He. rewrite Hl, Hpos, He. eexists. reflexivity.
  - intros lr epochs Hl Hpos He. rewrite Hl, Hpos, He. split; [reflexivity|].
    intros Hle. replace (Z.to_nat epochs) with O by lia. reflexivity.
  - intros lr n m. apply adam_loop_app.
  - intros lr n m e Hle E. replace m with (n + (m - n))%nat by lia.
    rewrite adam_loop_app, E. reflexivity.
Qed.

(** ** What the acquisition optimizers accept (lines 129-161) *)

(** X7. A list of acquisition types passes the validators, but with the
    continuous optimizer ([acqf_optimizer = 'l-bfgs'], the default) every
    model-based [suggest] on supported inputs raises [TypeError]:
    [create_acqf] hands a Python list to botorch's [optimize_acqf], which
    calls its argument. Nothing is logged; the generator is left in the
    state in which botorch's failed call left it. *)
Theorem suggest_lbfgs_list_raises (self : BODesigner) (names : list string)
    (count : option Z) (w : world Rng) (X : Np.ndarray F) (metric : string)
    (y : list F) (model' : Model) :
  _n_init self <= Z.of_nat (length (_trials self)) ->
  _acqf_optimizer self = "l-bfgs" ->
  _acqf_type self = AcqfNames names ->
  convert (_converter self) (_trials self) = ([(DOUBLE, X)], [(metric, y)]) ->
  optimize_model self (fst (create_model self X (Np.standardize y)))
                 (snd (create_model self X (Np.standardize y)))
                 X (Np.standardize y) = Ok model' ->
  (Forall (fun n => In n acqf_names) names ->
   validate_acqf_type (_acqf_type self) = Ok tt)
  /\ suggest self count w
     = (Raise (TypeError "'list' object is not callable"),
        World (botorch_draws_on_list
                 (map (fun name => acqf_factory name model' X (Np.standardize y)) names)
                 (_lb self, _ub self) (_q self) 10 1024 (rng w))
              (log w)).
Proof.
  intros Hstate Ho Ha Hc Hfit. split.
  - intros Hall. rewrite Ha. apply validate_acqf_type_ok_iff. exact Hall.
  - unfold suggest.
    destruct (Z.ltb_spec (Z.of_nat (length (_trials self))) (_n_init self)); [lia|].
    rewrite Hc. cbn [dict_mem dict_get SpecType_eqb length Nat.eqb andb negb
                     dict_getitem map snd].
    unfold bind at 1. unfold lift_result at 1.
    unfold bind at 1. unfold ret at 1.
    destruct (create_model self X (Np.standardize y)) as [mll model] eqn:Ecm.
    cbn [fst snd] in Hfit.
    unfold bind at 1. unfold lift_result at 1. rewrite Hfit.
    unfold create_acqf, optimize_acqf. rewrite Ha, Ho.
    cbn [String.eqb Ascii.eqb Bool.eqb]. reflexivity.
Qed.

(** X8. With [acqf_optimizer = 'nsgaii'] and a configured number of
    generations that is zero or negative, the loop body never runs: no
    trial is suggested and no acquisition function is evaluated, whatever
    [create_acqf] returned, and the batch is assembled from the Pareto set
    and the population of the NSGA-II designer as it was constructed (with
    [pop_size] 20 and no [n_offsprings] unless configured), after the
    warning if at most one metric is defined. *)
Theorem optimize_acqf_no_generation (self : BODesigner) (acqf : acqf_value)
    (w : world Rng) :
  _acqf_optimizer self = "nsgaii" ->
  dict_get_default String.eqb (_acqf_config self) "epochs" 200 <= 0 ->
  let problem := {| search_space := search_space (_problem_statement self);
                    objective := acqf_objective self |} in
  let d0 := NSGAIIDesigner problem
              (dict_get_default String.eqb (_acqf_config self) "pop_size" 20)
              (dict_get String.eqb (_acqf_config self) "n_offsprings") in
  optimize_acqf self acqf w
  = next_X_of self (fst (nsgaii_result d0)) (fst (nsgaii_curr_pop d0))
      (World (rng w)
             (log w ++ if num_metrics (acqf_objective self) <=? 1
                       then [nsgaii_warning] else [])).
Proof.
  intros Ho He problem d0. unfold optimize_acqf. rewrite Ho.
  cbn [String.eqb Ascii.eqb Bool.eqb]. fold problem. fold d0.
  replace (Z.to_nat (dict_get_default String.eqb (_acqf_config self) "epochs" 200))
    with O by lia.
  cbn [nsgaii_loop].
  destruct (num_metrics (acqf_objective self) <=? 1).
  - reflexivity.
  - unfold bind, ret. rewrite app_nil_r. destruct w; reflexivity.
Qed.

(** The synthetic objective returns exactly on a non-empty list. *)
Lemma acqf_obj_raises (acqf : acqf_value) :
  (forall a l, acqf <> AcqfList (a :: l)) ->
  exists e, forall x, acqf_obj x acqf = Raise e.
Proof.
  intros Hne. destruct acqf as [[|a l]|a].
  - eexists. intros x. reflexivity.
  - exfalso. exact (Hne a l eq_refl).
  - eexists. intros x. reflexivity.
Qed.

(** A generation whose evaluation raises ends the loop. *)
Lemma nsgaii_loop_raises (n : nat) (acqf : acqf_value) (e : exn)
    (problem : ProblemStatement SearchSpace) (d : NSGAII) (w : world Rng) :
  (forall x, acqf_obj x acqf = Raise e) ->
  nsgaii_loop (S n) acqf problem d w
  = (Raise e, World (snd (nsgaii_suggest d (rng w))) (log w)).
Proof.
  intros He. cbn [nsgaii_loop]. unfold bind at 1, draw.
  destruct (nsgaii_suggest d (rng w)) as [[trials d1] g].
  unfold bind, TorchExperimenter_evaluate, lift_result. cbn [fst snd].
  rewrite He. reflexivity.
Qed.

(** X9. With [acqf_optimizer = 'nsgaii'] and at least one generation,
    [optimize_acqf] can return a batch only for a non-empty list of
    acquisition functions: on a single acquisition function the first
    evaluation raises [TypeError] (it is not iterable), and on the empty
    list it raises [RuntimeError] ([torch.hstack] of no tensor). *)
Theorem nsgaii_needs_nonempty_list (self : BODesigner) (acqf : acqf_value)
    (w : world Rng) :
  _acqf_optimizer self = "nsgaii" ->
  0 < dict_get_default String.eqb (_acqf_config self) "epochs" 200 ->
  (forall X w', optimize_acqf self acqf w = (Ok X, w') ->
     exists a l, acqf = AcqfList (a :: l))
  /\ (forall a, acqf = AcqfOne a ->
        exists w', optimize_acqf self acqf w
                   = (Raise (TypeError "object is not iterable"), w'))
  /\ (acqf = AcqfList [] ->
      exists w', optimize_acqf self acqf w
                 = (Raise (RuntimeError "hstack expects a non-empty TensorList"), w')).
Proof.
  intros Ho He.
  assert (Hraise : forall e, (forall x, acqf_obj x acqf = Raise e) ->
            exists w', optimize_acqf self acqf w = (Raise e, w')).
  { intros e Hobj. unfold optimize_acqf. rewrite Ho.
    cbn [String.eqb Ascii.eqb Bool.eqb].
    destruct (Z.to_nat (dict_get_default String.eqb (_acqf_config self) "epochs" 200))
      as [|n] eqn:En; [lia|].
    unfold bind at 1.
    destruct ((if num_metrics (acqf_objective self) <=? 1
               then logger_warning nsgaii_warning else ret tt) w) as [[[]|e0] w1] eqn:Ew.
    - unfold bind at 1. erewrite nsgaii_loop_raises by exact Hobj.
      eexists. reflexivity.
    - destruct (num_metrics (acqf_objective self) <=? 1); discriminate. }
  split; [|split].
  - intros X w' E. destruct acqf as [[|a l]|a].
    + destruct (Hraise _ (fun x => eq_refl)) as (w1 & E1). congruence.
    + eexists _, _. reflexivity.
    + destruct (Hraise _ (fun x => eq_refl)) as (w1 & E1). congruence.
  - intros a ->. apply Hraise. reflexivity.
  - intros ->. apply Hraise. reflexivity.
Qed.

(** ** Failures of [suggest] before the acquisition step (lines 196-216) *)

(** X10. In the model-based state with continuous features only: a
    converter that reports no metric makes [suggest] raise [ValueError]
    ([np.concatenate] of no array), and a surrogate fit that raises makes
    [suggest] raise the same exception. In both cases nothing was drawn and
    nothing was logged. *)
Theorem suggest_early_errors (self : BODesigner) (count : option Z)
    (w : world Rng) (X : Np.ndarray F) :
  _n_init self <= Z.of_nat (length (_trials self)) ->
  fst (convert (_converter self) (_trials self)) = [(DOUBLE, X)] ->
  let labels := snd (convert (_converter self) (_trials self)) in
  (labels = [] ->
   suggest self count w
   = (Raise (ValueError "need at least one array to concatenate"), w))
  /\ (forall metric y e,
        labels = [(metric, y)] ->
        optimize_model self (fst (create_model self X (Np.standardize y)))
                       (snd (create_model self X (Np.standardize y)))
                       X (Np.standardize y) = Raise e ->
        suggest self count w = (Raise e, w)).
Proof.
  intros Hstate Hf labels. unfold labels, suggest.
  destruct (Z.ltb_spec (Z.of_nat (length (_trials self))) (_n_init self)); [lia|].
  destruct (convert (_converter self) (_trials self)) as [features lbls].
  cbn [fst snd] in *. subst features.
  cbn [dict_mem dict_get SpecType_eqb length Nat.eqb andb negb dict_getitem].
  split.
  - intros ->. reflexivity.
  - intros metric y e -> Hfit. cbn [map snd].
    unfold bind at 1. unfold lift_result at 1.
    unfold bind at 1. unfold ret at 1.
    destruct (create_model self X (Np.standardize y)) as [mll model].
    cbn [fst snd] in Hfit.
    unfold bind at 1. unfold lift_result at 1. rewrite Hfit. reflexivity.
Qed.

(** ** The batch size at its edges (lines 169-171) *)

(** X11. A negative batch size [q] makes the batch assembly raise before
    anything is drawn ([len(pareto_X) >= q] holds, and [np.random.choice]
    refuses the size): [ValueError] when the Pareto set is empty or [q] is
    at least [-2^63], and [OverflowError] when the Pareto set is not empty
    and [q] is below [-2^63]. With [q = 0] it returns the empty batch. *)
Theorem next_X_of_degenerate_q (self : BODesigner) (pareto_X pop_X : Np.ndarray F)
    (w : world Rng) :
  (_q self < 0 ->
   next_X_of self pareto_X pop_X w
   = (Raise (if (length pareto_X =? 0)%nat then
               ValueError "a must be greater than 0 unless no samples are taken"
             else if _q self <? - 2 ^ 63 then
               OverflowError "Python int too large to convert to C long"
             else
               ValueError "negative dimensions are not allowed"), w))
  /\ (_q self = 0 -> sample_ok ->
      exists g, next_X_of self pareto_X pop_X w = (Ok [], World g (log w))).
Proof.
  split.
  - intros Hq. unfold next_X_of.
    destruct (Z.geb_spec (Z.of_nat (length pareto_X)) (_q self)); [|lia].
    unfold bind, Np.random_choice.
    destruct (Nat.eqb_spec (length pareto_X) 0) as [Hn|Hn]; cbn [andb].
    + destruct (Z.eqb_spec (_q self) 0); [lia|]. reflexivity.
    + destruct (Z.ltb_spec (_q self) (- 2 ^ 63)); [reflexivity|].
      destruct (Z.ltb_spec (Z.of_nat (length pareto_X)) (_q self)); [lia|].
      destruct (Z.ltb_spec (_q self) 0); [reflexivity | lia].
  - intros Hq Hs. unfold next_X_of.
    destruct (Z.geb_spec (Z.of_nat (length pareto_X)) (_q self)); [|lia].
    erewrite bind_ok_intro by (apply random_choice_ok; lia).
    rewrite Hq. cbn [Z.to_nat].
    destruct (Hs (length pareto_X) O (rng w)) as (_ & Hlen & _); [lia|].
    destruct (fst (sample (length pareto_X) 0 (rng w))); [|discriminate].
    eexists. reflexivity.
Qed.

(** ** Duplicates in a batch (lines 164-186) *)

Lemma rows_at_exists (arr : Np.ndarray F) idx rows (r : Np.row F) :
  Forall2 (fun i r => nth_error arr i = Some r) idx rows ->
  In r rows ->
  exists i, In i idx /\ nth_error arr i = Some r.
Proof.
  induction 1 as [|i r' idx rows Hir H IH]; intros Hin; [contradiction|].
  destruct Hin as [<-|Hin].
  - exists i. split; [left; reflexivity | exact Hir].
  - destruct (IH Hin) as (j & Hj & E). exists j. split; [right; exact Hj | exact E].
Qed.

(** Rows taken at distinct indices of an array without repeated rows are
    distinct. *)
Lemma rows_at_NoDup (arr : Np.ndarray F) idx rows :
  NoDup arr -> NoDup idx ->
  Forall2 (fun i r => nth_error arr i = Some r) idx rows ->
  NoDup rows.
Proof.
  intros Harr Hidx H. induction H as [|i r idx rows Hir H IH]; [constructor|].
  inversion Hidx as [|? ? Hni Hidx']; subst. constructor; [|exact (IH Hidx')].
  intros Hin. destruct (rows_at_exists arr r H Hin) as (j & Hj & Ej).
  assert (i = j); [|subst; contradiction].
  apply (proj1 (NoDup_nth_error arr) Harr).
  - apply nth_error_Some. congruence.
  - congruence.
Qed.

Lemma choice_take_NoDup (arr : Np.ndarray F) (k : Z) (w : world Rng) idx w' rows :
  sample_ok -> NoDup arr ->
  Np.random_choice sample (length arr) k w = (Ok idx, w') ->
  Np.take arr idx = Ok rows ->
  NoDup rows /\ Z.of_nat (length rows) = k /\ Forall (fun r => In r arr) rows.
Proof.
  intros Hs Harr Ec Et.
  apply random_choice_ok_inv in Ec as [Hk ->].
  destruct (Hs (length arr) (Z.to_nat k) (rng w)) as (Hnd & Hlen & _); [lia|].
  apply take_ok_inv in Et. split; [|split].
  - exact (rows_at_NoDup Harr Hnd Et).
  - rewrite (rows_at_length _ Et), Hlen. lia.
  - exact (rows_at_In _ Et).
Qed.

(** X12. When the Pareto set and the population hold no repeated row, the
    Pareto rows have a coordinate and no NaN, and [q] does not exceed the number of Pareto
    rows plus the number of rows of [diff_X] (so that no random fill is
    needed), every batch that the assembly returns consists of pairwise
    different rows. *)
Theorem next_X_distinct (self : BODesigner) (pareto_X pop_X : Np.ndarray F)
    (w : world Rng) (X : Np.ndarray F) (w' : world Rng) :
  sample_ok ->
  NoDup pareto_X -> NoDup pop_X -> Forall regular pareto_X ->
  _q self <= Z.of_nat (length pareto_X + length (diff_X_of pop_X pareto_X)) ->
  next_X_of self pareto_X pop_X w = (Ok X, w') ->
  NoDup X.
Proof.
  intros Hs Hpar Hpop Hreg Hq. unfold next_X_of.
  assert (Hdiff : NoDup (diff_X_of pop_X pareto_X)).
  { unfold diff_X_of. apply NoDup_filter. exact Hpop. }
  assert (Hdisj : forall x, In x pareto_X -> ~ In x (diff_X_of pop_X pareto_X)).
  { intros x Hx. apply diff_X_of_disjoint; [|exact Hx].
    rewrite Forall_forall in Hreg. auto. }
  set (diff_X := diff_X_of pop_X pareto_X) in *.
  destruct (Z.geb_spec (Z.of_nat (length pareto_X)) (_q self)) as [Hge|Hlt].
  - intros E. apply bind_ok_inv in E as (idx & w1 & Ec & Et).
    apply lift_result_ok_inv in Et as [Et _].
    exact (proj1 (choice_take_NoDup _ _ Hs Hpar Ec Et)).
  - intros E. apply bind_ok_inv in E as (blocks & w1 & E1 & E).
    apply bind_ok_inv in E as (blocks' & w2 & E2 & E).
    inversion E; subst X w'; clear E.
    destruct (Z.gtb_spec (Z.of_nat (length diff_X)) 0) as [Hpos|Hzero]; [|lia].
    apply bind_ok_inv in E1 as (idx & w3 & Ec & E1).
    apply bind_ok_inv in E1 as (picked & w4 & Et & E1).
    apply lift_result_ok_inv in Et as [Et _].
    inversion E1; subst blocks w4; clear E1.
    destruct (choice_take_NoDup _ _ Hs Hdiff Ec Et) as (Hnd & Hlen & Hin).
    assert (Hv : Np.vstack [pareto_X; picked] = pareto_X ++ picked).
    { unfold Np.vstack. cbn. rewrite app_nil_r. reflexivity. }
    rewrite Hv in E2. rewrite length_app in E2.
    destruct (Z.gtb_spec (_q self - Z.of_nat (length pareto_X + length picked)) 0)
      as [Hrem|Hrem]; [lia|].
    inversion E2; subst blocks' w2; clear E2. rewrite Hv.
    apply NoDup_app; [exact Hpar | exact Hnd |].
    intros x Hx Hx'. apply (Hdisj x Hx).
    rewrite Forall_forall in Hin. auto.
Qed.

(** ** The set difference at its edges (line 166) *)

(** X13. [diff_X] is a selection of population rows, in their order: it
    is never longer than the population; with an empty Pareto set it is the
    whole population; and when every population row (with a coordinate and
    no NaN) is a row of the Pareto set it is empty. *)
Theorem diff_X_of_edges (pop_X pareto_X : Np.ndarray F) :
  diff_X_of pop_X [] = pop_X
  /\ (Forall regular pop_X -> incl pop_X pareto_X -> diff_X_of pop_X pareto_X = [])
  /\ (length (diff_X_of pop_X pareto_X) <= length pop_X)%nat
  /\ (exists keep, length keep = length pop_X
                   /\ diff_X_of pop_X pareto_X
                      = map fst (filter snd (combine pop_X keep))).
Proof.
  unfold diff_X_of. split; [|split; [|split]].
  - induction pop_X as [|x pop IH]; [reflexivity|]. cbn. f_equal. exact IH.
  - intros Hreg Hincl. induction pop_X as [|x pop IH]; [reflexivity|].
    inversion Hreg; subst. cbn [filter].
    rewrite (contains_self pareto_X); [|assumption|apply Hincl; left; reflexivity].
    cbn. apply IH; [assumption|]. intros y Hy. apply Hincl. right. exact Hy.
  - induction pop_X as [|x pop IH]; [cbn; lia|]. cbn [filter].
    destruct (negb _); cbn [length]; lia.
  - exists (map (fun x => negb (Np.contains pareto_X x)) pop_X).
    split; [apply length_map|].
    induction pop_X as [|x pop IH]; [reflexivity|]. cbn [filter map combine].
    cbn [snd]. destruct (negb _); cbn [map fst]; rewrite IH; reflexivity.
Qed.

(** ** The objective handed to NSGA-II (lines 137-156) *)

Lemma fold_add_metric (names : list string) (obj : Objective) :
  fold_left (fun obj name => add_metric obj name MAXIMIZE) names obj
  = obj ++ map (fun name => (name, MAXIMIZE)) names.
Proof.
  revert obj. induction names as [|n names IH]; intros obj; cbn [fold_left map].
  - rewrite app_nil_r. reflexivity.
  - rewrite IH. unfold add_metric. rewrite <- app_assoc. reflexivity.
Qed.

Lemma acqf_objective_names (self : BODesigner) :
  acqf_objective self
  = map (fun name => (name, MAXIMIZE)) (names_of (_acqf_type self)).
Proof.
  unfold acqf_objective, names_of. destruct (_acqf_type self) as [name|names].
  - reflexivity.
  - apply fold_add_metric.
Qed.

Lemma num_metrics_names (self : BODesigner) :
  num_metrics (acqf_objective self)
  = Z.of_nat (length (names_of (_acqf_type self))).
Proof.
  rewrite acqf_objective_names. unfold num_metrics. rewrite length_map. reflexivity.
Qed.

Lemma map2_app_shape (n k : nat) (a b : Np.ndarray F) :
  shape n k a -> shape n 1 b -> shape n (k + 1) (Np.map2 (@app F) a b).
Proof.
  unfold shape. revert n b. induction a as [|r a IH]; intros n b [Hn Ha] [Hb Hb1].
  - cbn in *. split; [exact Hn | constructor].
  - destruct b as [|c b]; [cbn in *; lia|]. cbn [Np.map2 length] in *.
    inversion Ha; subst. inversion Hb1; subst.
    destruct (IH (length a) b) as [Hl Hf]; [split; [reflexivity|assumption]
                                           | split; [lia|assumption] |].
    split; [lia|]. constructor; [|exact Hf]. rewrite length_app. lia.
Qed.

Lemma hstack_fold_shape (n : nat) (bs : list (Np.ndarray F)) (k : nat)
    (acc : Np.ndarray F) :
  shape n k acc -> Forall (shape n 1) bs ->
  shape n (k + length bs) (fold_left (Np.map2 (@app F)) bs acc).
Proof.
  revert k acc. induction bs as [|b bs IH]; intros k acc Hacc Hbs; cbn [fold_left length].
  - rewrite Nat.add_0_r. exact Hacc.
  - inversion Hbs; subst. replace (k + S (length bs))%nat with (k + 1 + length bs)%nat by lia.
    apply IH; [|assumption]. apply map2_app_shape; assumption.
Qed.

Lemma unsqueeze_last_shape (v : list F) : shape (length v) 1 (Np.unsqueeze_last v).
Proof.
  unfold shape, Np.unsqueeze_last. split; [apply length_map|].
  apply Forall_forall. intros r Hr. apply in_map_iff in Hr as (y & <- & _). reflexivity.
Qed.

(** X14. The objective handed to NSGA-II has one metric per configured
    acquisition name, in the configured order, each to be maximized. With
    a list of names and acquisition functions that give one value per
    point, the synthetic objective [acqf_obj] returns exactly when the list
    is not empty, and then it gives, for [n] points, an array of [n] rows
    with one column per metric of that objective. *)
Theorem synthetic_objective_shape (self : BODesigner) (names : list string)
    (model : Model) (X : Np.ndarray F) (Y : list F) (x : Np.ndarray F) :
  _acqf_type self = AcqfNames names ->
  (forall a, length (acqf_call a x) = length x) ->
  acqf_objective self = map (fun name => (name, MAXIMIZE)) names
  /\ num_metrics (acqf_objective self) = Z.of_nat (length names)
  /\ (names <> [] <->
      exists y, acqf_obj x (create_acqf self model X Y) = Ok y)
  /\ (forall y, acqf_obj x (create_acqf self model X Y) = Ok y ->
        length y = length x
        /\ Forall (fun r => Z.of_nat (length r) = num_metrics (acqf_objective self)) y).
Proof.
  intros Ha Hcall.
  assert (Hn : num_metrics (acqf_objective self) = Z.of_nat (length names)).
  { rewrite num_metrics_names, Ha. reflexivity. }
  split; [|split; [exact Hn|split]].
  - rewrite acqf_objective_names, Ha. reflexivity.
  - unfold create_acqf, acqf_obj. rewrite Ha. destruct names as [|n names]; cbn.
    + split; [congruence | intros (y & E); discriminate].
    + split; [intros _; eexists; reflexivity | discriminate].
  - intros y. rewrite Hn. unfold create_acqf, acqf_obj. rewrite Ha.
    destruct names as [|n names]; cbn [map Np.hstack]; [discriminate|].
    intros E. inversion E; subst y; clear E.
    match goal with
    | |- context [fold_left _ ?bs ?b] =>
        assert (Hs : shape (length x) (1 + length bs) (fold_left (Np.map2 (@app F)) bs b))
    end.
    { apply hstack_fold_shape.
      - rewrite <- (Hcall (acqf_factory n model X Y)). apply unsqueeze_last_shape.
      - apply Forall_forall. intros b Hb. apply in_map_iff in Hb as (a & <- & _).
        rewrite <- (Hcall a). apply unsqueeze_last_shape. }
    rewrite !length_map in Hs. destruct Hs as [Hl Hf]. split; [exact Hl|].
    eapply Forall_impl; [|exact Hf]. cbn. intros r ->. cbn [length]. lia.
Qed.

(** ** The random fill at its edges (lines 180-185) *)

(** X15. The random fill asks the bootstrap sampler for [quota] trials and
    reads one feature array per key of [input_converter_dict]: with no key
    it raises [ValueError] ([np.hstack] of no array), with a key that the
    features lack it raises [KeyError], and with a single key it is that
    key's feature array. In each case the sampler was called once and
    nothing was logged. *)
Theorem random_fill_edges (self : BODesigner) (quota : Z) (w : world Rng) :
  let trials := fst (RandomDesigner_suggest (_init_designer self) (Some quota) (rng w)) in
  let w' := World (snd (RandomDesigner_suggest (_init_designer self) (Some quota) (rng w)))
                  (log w) in
  let features := to_features (_converter self) trials in
  let names := input_converter_dict (_converter self) in
  (names = [] ->
   random_fill self quota w
   = (Raise (ValueError "need at least one array to concatenate"), w'))
  /\ ((exists name, In name names /\ dict_get String.eqb features name = None) ->
      random_fill self quota w = (Raise (KeyError "key not found"), w'))
  /\ (forall name a, names = [name] ->
        dict_get String.eqb features name = Some a ->
        random_fill self quota w = (Ok a, w')).
Proof.
  intros trials w' features names. unfold w', features, names, trials.
  clear trials w' features names.
  unfold random_fill, bind, draw, lift_result.
  destruct (RandomDesigner_suggest (_init_designer self) (Some quota) (rng w))
    as [ts g]. cbv beta iota. cbn [fst snd].
  set (features := to_features (_converter self) ts).
  split; [|split].
  - intros ->. reflexivity.
  - intros (name & Hin & Hnone).
    match goal with
    | |- context [?c (input_converter_dict (_converter self))] =>
        assert (Hcols : c (input_converter_dict (_converter self))
                        = Raise (KeyError "key not found"))
    end.
    { induction (input_converter_dict (_converter self)) as [|n ns IH];
        [contradiction|].
      unfold dict_getitem at 1.
      destruct (dict_get String.eqb features n) as [a|] eqn:En; [|reflexivity].
      cbn [result_bind]. destruct Hin as [->|Hin]; [congruence|].
      rewrite (IH Hin). reflexivity. }
    rewrite Hcols. reflexivity.
  - intros name a -> Ha. unfold dict_getitem. rewrite Ha. reflexivity.
Qed.

(** ** What is logged (lines 26, 143-144) *)

Lemma logs_ret {A} (a : A) : logs (ret (Rng:=Rng) a) [].
Proof. intros w. cbn. rewrite app_nil_r. reflexivity. Qed.

Lemma logs_raise {A} (e : exn) : logs (raise (Rng:=Rng) (A:=A) e) [].
Proof. intros w. cbn. rewrite app_nil_r. reflexivity. Qed.

Lemma logs_lift_result {A} (r : result A) : logs (lift_result (Rng:=Rng) r) [].
Proof. intros w. cbn. rewrite app_nil_r. reflexivity. Qed.

Lemma logs_draw {A} (f : Rng -> A * Rng) : logs (draw f) [].
Proof.
  intros w. unfold draw. destruct (f (rng w)). cbn. rewrite app_nil_r. reflexivity.
Qed.

(** A computation that logs [records], followed by one that logs nothing. *)
Lemma logs_bind {A B} (m : M Rng A) (k : A -> M Rng B) (records : list string) :
  logs m records -> (forall a, logs (k a) []) -> logs (bind m k) records.
Proof.
  intros Hm Hk w. unfold bind. specialize (Hm w).
  destruct (m w) as [[a|e] w1]; cbn [snd] in *.
  - rewrite (Hk a w1), app_nil_r. exact Hm.
  - exact Hm.
Qed.

(** A computation that logs nothing, followed by one that logs nothing or
    [records]. *)
Lemma logs_upto_bind {A B} (m : M Rng A) (k : A -> M Rng B)
    (records : list string) (w : world Rng) :
  logs m [] ->
  (forall a w1, log (snd (k a w1)) = log w1
                \/ log (snd (k a w1)) = log w1 ++ records) ->
  log (snd (bind m k w)) = log w \/ log (snd (bind m k w)) = log w ++ records.
Proof.
  intros Hm Hk. unfold bind. specialize (Hm w). rewrite app_nil_r in Hm.
  destruct (m w) as [[a|e] w1]; cbn [snd] in *.
  - rewrite <- Hm. apply Hk.
  - left. exact Hm.
Qed.

Lemma logs_random_choice (n : nat) (k : Z) : logs (Np.random_choice sample n k) [].
Proof.
  unfold Np.random_choice.
  destruct ((n =? 0)%nat && negb (k =? 0))%bool; [apply logs_raise|].
  destruct (k <? - 2 ^ 63); [apply logs_raise|].
  destruct (Z.of_nat n <? k);
    [destruct (2 ^ 63 - 1 <? k); apply logs_raise|].
  destruct (k <? 0); [apply logs_raise | apply logs_draw].
Qed.

Lemma logs_random_fill (self : BODesigner) (quota : Z) :
  logs (random_fill self quota) [].
Proof.
  unfold random_fill. apply logs_bind; [apply logs_draw|]. intros trials.
  apply logs_bind; [apply logs_lift_result|]. intros random_X.
  apply logs_lift_result.
Qed.

Lemma logs_nsgaii_loop (epochs : nat) (acqf : acqf_value)
    (problem : ProblemStatement SearchSpace) (d : NSGAII) :
  logs (nsgaii_loop epochs acqf problem d) [].
Proof.
  revert d. induction epochs as [|n IH]; intros d; cbn [nsgaii_loop].
  - apply logs_ret.
  - apply logs_bind; [apply logs_draw|]. intros st.
    apply logs_bind; [|intros trials; apply IH].
    unfold TorchExperimenter_evaluate.
    apply logs_bind; [apply logs_lift_result|]. intros y. apply logs_ret.
Qed.

Lemma logs_next_X_of (self : BODesigner) (pareto_X pop_X : Np.ndarray F) :
  logs (next_X_of self pareto_X pop_X) [].
Proof.
  unfold next_X_of. destruct (_ >=? _).
  - apply logs_bind; [apply logs_random_choice|]. intros idx. apply logs_lift_result.
  - apply logs_bind.
    + destruct (_ >? _); [|apply logs_ret].
      apply logs_bind; [apply logs_random_choice|]. intros idx.
      apply logs_bind; [apply logs_lift_result|]. intros picked. apply logs_ret.
    + intros blocks. apply logs_bind; [|intros blocks'; apply logs_ret].
      destruct (_ >? _); [|apply logs_ret].
      apply logs_bind; [apply logs_random_fill|]. intros R. apply logs_ret.
Qed.

Lemma logs_optimize_acqf (self : BODesigner) (acqf : acqf_value) :
  logs (optimize_acqf self acqf)
       (if ((_acqf_optimizer self =? "nsgaii")%string
            && (length (names_of (_acqf_type self)) <=? 1)%nat)%bool
        then [nsgaii_warning] else []).
Proof.
  unfold optimize_acqf.
  destruct (_acqf_optimizer self =? "l-bfgs")%string eqn:E1.
  - apply String.eqb_eq in E1. rewrite E1. cbn [String.eqb Ascii.eqb Bool.eqb andb].
    destruct acqf as [l|a]; [intros w; cbn; rewrite app_nil_r; reflexivity|].
    intros w. destruct (botorch_optimize_acqf _ _ _ _ _ _). cbn.
    rewrite app_nil_r. reflexivity.
  - destruct (_acqf_optimizer self =? "nsgaii")%string; cbn [andb];
      [|apply logs_raise].
    assert (Hcond : (num_metrics (acqf_objective self) <=? 1)
                    = (length (names_of (_acqf_type self)) <=? 1)%nat).
    { rewrite num_metrics_names.
      destruct (Z.leb_spec (Z.of_nat (length (names_of (_acqf_type self)))) 1);
        destruct (Nat.leb_spec (length (names_of (_acqf_type self))) 1);
        try reflexivity; lia. }
    rewrite Hcond.
    assert (Hrest : forall d0, logs
              (nsgaii_designer <-
                 nsgaii_loop
                   (Z.to_nat (dict_get_default String.eqb (_acqf_config self) "epochs" 200))
                   acqf
                   {| search_space := search_space (_problem_statement self);
                      objective := acqf_objective self |} d0 ;;
               next_X_of self (fst (nsgaii_result nsgaii_designer))
                         (fst (nsgaii_curr_pop nsgaii_designer))) []).
    { intros d0. apply logs_bind; [apply logs_nsgaii_loop|]. intros d.
      apply logs_next_X_of. }
    intros w. unfold bind at 1.
    destruct (length (names_of (_acqf_type self)) <=? 1)%nat.
    + unfold logger_warning. rewrite Hrest. cbn [log]. rewrite app_nil_r. reflexivity.
    + unfold ret at 1. rewrite Hrest. reflexivity.
Qed.

(** X16. The only record the designer ever logs is the NSGA-II warning of
    line 144: [optimize_acqf], returning or raising, logs it once exactly
    when [acqf_optimizer = 'nsgaii'] and at most one acquisition name is
    configured (a single name, or a list of at most one), and logs nothing
    otherwise; a [suggest] call leaves the log as it was or adds that one
    record, the latter only in the model-based state under those settings. *)
Theorem log_discipline (self : BODesigner) :
  (forall acqf w,
     log (snd (optimize_acqf self acqf w))
     = log w ++ (if ((_acqf_optimizer self =? "nsgaii")%string
                     && (length (names_of (_acqf_type self)) <=? 1)%nat)%bool
                 then [nsgaii_warning] else []))
  /\ (forall count w,
        log (snd (suggest self count w)) = log w
        \/ (log (snd (suggest self count w)) = log w ++ [nsgaii_warning]
            /\ _n_init self <= Z.of_nat (length (_trials self))
            /\ _acqf_optimizer self = "nsgaii"
            /\ (length (names_of (_acqf_type self)) <= 1)%nat)).
Proof.
  split; [intros acqf w; apply logs_optimize_acqf|].
  set (records := if ((_acqf_optimizer self =? "nsgaii")%string
                      && (length (names_of (_acqf_type self)) <=? 1)%nat)%bool
                  then [nsgaii_warning] else []).
  assert (Hupto : forall count w,
            log (snd (suggest self count w)) = log w
            \/ (_n_init self <= Z.of_nat (length (_trials self))
                /\ log (snd (suggest self count w)) = log w ++ records)).
  { intros count w.
    assert (Hnil : forall (m : M Rng (list Trial)), logs m [] ->
              log (snd (m w)) = log w).
    { intros m Hm. rewrite (Hm w), app_nil_r. reflexivity. }
    unfold suggest.
    destruct (Z.ltb_spec (Z.of_nat (length (_trials self))) (_n_init self))
      as [Hlt|Hge].
    { left. apply Hnil, logs_draw. }
    destruct (convert (_converter self) (_trials self)) as [features labels].
    destruct (negb _).
    { left. apply Hnil, logs_raise. }
    assert (H : forall (m : M Rng (list Trial)),
              (log (snd (m w)) = log w \/ log (snd (m w)) = log w ++ records) ->
              log (snd (m w)) = log w
              \/ (_n_init self <= Z.of_nat (length (_trials self))
                  /\ log (snd (m w)) = log w ++ records)).
    { intros m [H|H]; [left; exact H | right; split; assumption]. }
    apply H. clear H Hnil.
    apply logs_upto_bind; [apply logs_lift_result|]. intros train_X w1.
    apply logs_upto_bind.
    { destruct (map snd labels) as [|v [|v' l]];
        [apply logs_raise | apply logs_ret | apply logs_raise]. }
    intros train_Y w2.
    destruct (create_model self train_X (Np.standardize train_Y)) as [mll model].
    apply logs_upto_bind; [apply logs_lift_result|]. intros model' w3.
    right.
    apply (@logs_bind _ _ (optimize_acqf self _) _ records);
      [apply logs_optimize_acqf | intros next_X; apply logs_ret]. }
  intros count w. destruct (Hupto count w) as [H|[Hge H]]; [left; exact H|].
  unfold records in H.
  destruct ((_acqf_optimizer self =? "nsgaii")%string
            && (length (names_of (_acqf_type self)) <=? 1)%nat)%bool eqn:Ec.
  - right. apply andb_prop in Ec as [E1 E2]. apply String.eqb_eq in E1.
    apply Nat.leb_le in E2. repeat split; assumption.
  - left. rewrite H, app_nil_r. reflexivity.
Qed.

(** ** The continuous path end to end (lines 196-222, 130-134) *)

(** X19. In the model-based state with [acqf_optimizer = 'l-bfgs'], a
    single acquisition type, continuous features and one metric, and a
    surrogate fit that returns: [suggest] is [to_trials] of what botorch's
    optimizer gives for the acquisition function built from the fitted
    model, the features and the standardized labels, over the box
    [[lb, ub]] with batch size [q], 10 restarts and 1024 raw samples; an
    exception of the optimizer is the exception of [suggest]. The generator
    state is the optimizer's and nothing is logged. *)
Theorem suggest_lbfgs_pipeline (self : BODesigner) (name : string)
    (count : option Z) (w : world Rng) (X : Np.ndarray F) (metric : string)
    (y : list F) (model' : Model) :
  _n_init self <= Z.of_nat (length (_trials self)) ->
  _acqf_optimizer self = "l-bfgs" ->
  _acqf_type self = AcqfName name ->
  convert (_converter self) (_trials self) = ([(DOUBLE, X)], [(metric, y)]) ->
  optimize_model self (fst (create_model self X (Np.standardize y)))
                 (snd (create_model self X (Np.standardize y)))
                 X (Np.standardize y) = Ok model' ->
  let r := botorch_optimize_acqf (acqf_factory name model' X (Np.standardize y))
             (_lb self, _ub self) (_q self) 10 1024 (rng w) in
  suggest self count w
  = (match fst r with
     | Ok next_X => Ok (to_trials (_converter self) [(DOUBLE, next_X)])
     | Raise e => Raise e
     end,
     World (snd r) (log w)).
Proof.
  intros Hstate Ho Ha Hc Hfit r. unfold suggest.
  destruct (Z.ltb_spec (Z.of_nat (length (_trials self))) (_n_init self)); [lia|].
  rewrite Hc. cbn [dict_mem dict_get SpecType_eqb length Nat.eqb andb negb
                   dict_getitem map snd].
  unfold bind at 1. unfold lift_result at 1.
  unfold bind at 1. unfold ret at 1.
  destruct (create_model self X (Np.standardize y)) as [mll model] eqn:Ecm.
  cbn [fst snd] in Hfit.
  unfold bind at 1. unfold lift_result at 1. rewrite Hfit.
  unfold create_acqf, optimize_acqf. rewrite Ha, Ho.
  cbn [String.eqb Ascii.eqb Bool.eqb]. unfold bind. fold r.
  destruct r as [[next_X|e] g]; reflexivity.
Qed.

(** ** The generations of NSGA-II (lines 158-161) *)

(** X20. The generations run one after the other: [n + m] generations are
    [n] generations followed by [m] from the designer reached, and an
    exception in a generation ends the loop. On a non-empty list of
    acquisition functions the loop of [n] generations returns, logs
    nothing, and is exactly the [n]-fold iteration of one generation: the
    designer suggests trials, every acquisition function of the list is
    evaluated on their points, and the designer that made the suggestion is
    updated with the trials holding one column of values per function. *)
Theorem nsgaii_generations (n m : nat) (acqf : acqf_value)
    (problem : ProblemStatement SearchSpace) (d : NSGAII) (w : world Rng) :
  nsgaii_loop (n + m) acqf problem d w
  = bind (nsgaii_loop n acqf problem d)
         (fun d' => nsgaii_loop m acqf problem d') w
  /\ (forall a l, acqf = AcqfList (a :: l) ->
        let st := Nat.iter n (generation a l problem) (d, rng w) in
        nsgaii_loop n acqf problem d w = (Ok (fst st), World (snd st) (log w))).
Proof.
  split.
  - revert d w. induction n as [|n IH]; intros d w; cbn [Nat.add nsgaii_loop].
    + reflexivity.
    + unfold bind in *.
      destruct (draw (nsgaii_suggest d) w) as [[st|e] w1]; [|reflexivity].
      destruct (TorchExperimenter_evaluate _ problem (fst st) w1) as [[trials|e] w2];
        [|reflexivity].
      apply IH.
  - intros a l ->. revert d w. induction n as [|n IH]; intros d w.
    + cbn. destruct w; reflexivity.
    + cbn [nsgaii_loop]. unfold bind at 1, draw.
      destruct (nsgaii_suggest d (rng w)) as [[trials d1] g] eqn:Es.
      unfold bind at 1, TorchExperimenter_evaluate, bind at 1, lift_result.
      cbn [acqf_obj map Np.hstack fst snd]. unfold ret at 1.
      rewrite IH. cbn [rng log]. cbv zeta. rewrite Nat.iter_succ_r.
      match goal with
      | |- context [Nat.iter n _ ?st1] =>
          assert (Hg : generation a l problem (d, rng w) = st1)
            by (unfold generation; cbn [fst snd]; rewrite Es; reflexivity)
      end.
      rewrite Hg. reflexivity.
Qed.

(** ** Label standardisation (lines 204-216) *)


End Further.

(** ** The concrete instance meets the contracts *)

Section ToyFacts.

Import Toy.

Lemma sample_first_indices : sample_ok (Ext:=collaborators).
Proof.
  intros n k g Hk. cbn. repeat split.
  - apply seq_NoDup.
  - apply length_seq.
  - apply Forall_forall. intros i Hi. apply in_seq in Hi. lia.
Qed.

Lemma lower_corner_in_box : in_bounds [0; 0]%float [1; 1]%float [0; 0]%float.
Proof. split; repeat constructor. Qed.

Lemma repeat_Forall {A} (P : A -> Prop) (a : A) (n : nat) :
  P a -> Forall P (repeat a n).
Proof. intros H. induction n; cbn; constructor; assumption. Qed.

Lemma botorch_in_box o trials : botorch_ok (designer o trials).
Proof.
  intros a q' g X g'. cbn. unfold botorch. cbn [fst].
  destruct (Z.ltb_spec q' 0); [discriminate|].
  intros E. inversion E; subst. rewrite repeat_length. split; [lia|].
  apply repeat_Forall, lower_corner_in_box.
Qed.





Lemma to_trials_rows o trials : to_trials_ok (designer o trials).
Proof. intros X. cbn. apply length_map. Qed.

End ToyFacts.

(** ** The theorems at concrete inputs *)




(** C3 on the instance: the three rows of the population as the Pareto
    set, [q = 2]. *)
Lemma next_X_from_pareto_witness :
  let self := Toy.designer
                (Toy.options 2 2 (AcqfNames ["qEI"; "qUCB"]) "nsgaii" []) Toy.history in
  sample_ok (Ext:=Toy.collaborators)
  /\ 0 <= _q self <= Z.of_nat (length Toy.population)
  /\ Forall regular Toy.population
  /\ exists batch,
       next_X_of self Toy.population Toy.population Toy.w0
       = (Ok batch, World 1%nat [])
       /\ batch = [[0.25; 0.5]; [0.75; 0.125]]%float
       /\ Z.of_nat (length batch) = 2
       /\ Forall (fun x => In x Toy.population) batch
       /\ Forall (fun x => ~ In x (diff_X_of Toy.population Toy.population)) batch.
Proof.
  intros self.
  assert (Hreg : Forall regular Toy.population).
  { repeat constructor; discriminate. }
  destruct (next_X_from_pareto self Toy.population Toy.population Toy.w0
              sample_first_indices ltac:(cbn; lia))
    as (batch & E & Etake & _ & _ & Hlen & Hin & Hdiff).
  split; [exact sample_first_indices|].
  split; [cbn; lia|].
  split; [exact Hreg|].
  exists batch. split; [exact E|].
  split; [vm_compute in Etake; inversion Etake; reflexivity|].
  split; [exact Hlen|].
  split; [exact Hin|].
  exact (Hdiff Hreg).
Defined.

(** C4 at a concrete input. The population row [[1, 2]] is not a row of the
    Pareto set [[[1, 3]]], yet [x in pareto_X] holds for it (its first
    coordinate equals the first coordinate of the Pareto row), so line 166
    leaves it out of [diff_X]; the set difference by rows keeps it. *)
Theorem diff_X_drops_row_sharing_a_coordinate :
  let pareto_X := [[1; 3]]%float in
  let pop_X := [[1; 2]; [1; 3]]%float in
  Np.contains pareto_X [1; 2]%float = true
  /\ existsb (fun r => row_equal r [1; 2]%float) pareto_X = false
  /\ diff_X_of pop_X pareto_X = []
  /\ diff_X_by_rows pop_X pareto_X = [[1; 2]%float].
Proof. repeat split. Qed.

(** Inclusion of [diff_X] in the row-wise difference, on the instance: a
    population row that line 166 keeps. *)
Lemma diff_X_of_incl_witness :
  [0.75; 0.125]%float <> []
  /\ In [0.75; 0.125]%float (diff_X_of Toy.population Toy.pareto)
  /\ In [0.75; 0.125]%float (diff_X_by_rows Toy.population Toy.pareto).
Proof.
  assert (Hx : [0.75; 0.125]%float <> []) by discriminate.
  assert (Hin : In [0.75; 0.125]%float (diff_X_of Toy.population Toy.pareto))
    by (left; reflexivity).
  split; [exact Hx|].
  split; [exact Hin|].
  exact (diff_X_of_incl Toy.population Toy.pareto Hx Hin).
Defined.

(** C5 on the instance: ['nsgaii'] with the single acquisition type
    ['qEI'], two generations. *)
Lemma suggest_nsgaii_single_acqf_raises_witness :
  let self := Toy.designer
                (Toy.options 2 5 (AcqfName "qEI") "nsgaii" [("epochs", 2)])
                Toy.history in
  _n_init self <= Z.of_nat (length (_trials self))
  /\ _acqf_optimizer self = "nsgaii"
  /\ _acqf_type self = AcqfName "qEI"
  /\ 0 < dict_get_default String.eqb (_acqf_config self) "epochs" 200
  /\ suggest self (Some 5) Toy.w0
     = (Raise (TypeError "object is not iterable"),
        World 1%nat [nsgaii_warning])
  /\ exists g,
       suggest self (Some 5) Toy.w0
       = (Raise (TypeError "object is not iterable"),
          World g (log Toy.w0 ++ [nsgaii_warning])).
Proof.
  intros self.
  split; [cbn; lia|].
  split; [reflexivity|].
  split; [reflexivity|].
  split; [cbn; lia|].
  split; [vm_compute; reflexivity|].
  exact (suggest_nsgaii_single_acqf_raises self (name:="qEI") (Some 5) Toy.w0
           (X:=map fst Toy.history) (metric:="y") (y:=[1; 3]%float) (model':=tt)
           ltac:(cbn; lia) eq_refl eq_refl ltac:(cbn; lia) eq_refl eq_refl).
Defined.

(** C7 on the instance: a converter with an integer feature group, and a
    converter with two metrics. *)
Lemma suggest_rejects_unsupported_witness :
  let o := Toy.options 2 1 (AcqfName "qEI") "l-bfgs" [] in
  let mixed := Toy.designer_with Toy.mixed_converter o Toy.history in
  let two := Toy.designer_with Toy.two_metric_converter o Toy.history in
  _n_init mixed <= Z.of_nat (length (_trials mixed))
  /\ _n_init two <= Z.of_nat (length (_trials two))
  /\ suggest mixed (Some 1) Toy.w0
     = (Raise (NotImplementedError "Unsupported variable type for BO"), Toy.w0)
  /\ suggest two (Some 1) Toy.w0
     = (Raise (NotImplementedError "Unsupported for multiobjective BO"), Toy.w0).
Proof.
  intros o mixed two.
  split; [cbn; lia|].
  split; [cbn; lia|].
  split.
  - destruct (suggest_rejects_unsupported mixed (Some 1) Toy.w0 ltac:(cbn; lia))
      as [Hfeat _].
    apply (Hfeat INTEGER); [discriminate | reflexivity].
  - destruct (suggest_rejects_unsupported two (Some 1) Toy.w0 ltac:(cbn; lia))
      as [_ Hlab].
    apply Hlab. cbn. lia.
Defined.

(** C9 on the instance: a problem whose converter reports an integer
    parameter, and the continuous problem. *)
Lemma construction_requires_continuous_witness :
  let o := Toy.options 2 1 (AcqfName "qEI") "l-bfgs" [] in
  let o' := Toy.options_for (fun _ _ => Toy.mixed_converter)
              2 1 (AcqfName "qEI") "l-bfgs" [] in
  (exists spec,
      In spec (map snd (output_spec
                          (@from_problem float Toy.mixed_collaborators
                             Toy.problem true)))
      /\ spec_type spec <> DOUBLE)
  /\ attrs_post_init (Ext:=Toy.mixed_collaborators) Toy.problem o'
     = Raise (NotImplementedError "Unsupported variable type for BO")
  /\ (exists e, BODesigner_new (Ext:=Toy.mixed_collaborators) Toy.problem o' = Raise e)
  /\ BODesigner_new (Ext:=Toy.collaborators) Toy.problem o = Ok (Toy.designer o [])
  /\ _lb (Toy.designer o []) = [0; 0]%float
  /\ _ub (Toy.designer o []) = [1; 1]%float
  /\ _trials (Toy.designer o []) = []
  /\ (forall self,
        BODesigner_new (Ext:=Toy.collaborators) Toy.shifted_problem o = Ok self ->
        _lb self = [0x1.666666p-1]%float /\ _ub self = [1]%float).
Proof.
  intros o o'.
  assert (Hbad : exists spec,
             In spec (map snd (output_spec
                                 (@from_problem float Toy.mixed_collaborators
                                    Toy.problem true)))
             /\ spec_type spec <> DOUBLE).
  { exists {| spec_type := INTEGER; bounds := (0, 8)%float |}.
    split; [right; left; reflexivity | discriminate]. }
  destruct (construction_requires_continuous (Ext:=Toy.mixed_collaborators)
              Toy.problem o') as [Hraise _].
  destruct (construction_requires_continuous (Ext:=Toy.collaborators)
              Toy.problem o) as [_ Hok].
  destruct (Hraise Hbad) as [Hpost Hnew].
  destruct (Hok (Toy.designer o []) eq_refl) as (_ & Hlb & Hub & Htr & _).
  split; [exact Hbad|].
  split; [exact Hpost|].
  split; [exact Hnew|].
  split; [reflexivity|].
  split; [exact Hlb|].
  split; [exact Hub|].
  split; [exact Htr|].
  intros self Hnew'.
  destruct (construction_requires_continuous (Ext:=Toy.collaborators)
              Toy.shifted_problem o) as [_ Hok'].
  destruct (Hok' self Hnew') as (_ & Hlb' & Hub' & _).
  rewrite Hlb', Hub'. split; vm_compute; reflexivity.
Defined.

(** C10 on the instance: the default designer, before and after ten
    trials were updated. *)
Lemma default_designer_witness :
  let self := Toy.designer default_options [] in
  let self' := fst (run [CallUpdate (Ext:=Toy.collaborators) Toy.ten_trials]
                        (self, Toy.w0)) in
  BODesigner_new (Ext:=Toy.collaborators) Toy.problem default_options = Ok self
  /\ botorch_ok self
  /\ to_trials_ok self
  /\ supported_run self'
  /\ suggest (fst (run [CallUpdate (Ext:=Toy.collaborators) Toy.history; CallSuggest None]
                     (self, Toy.w0)))
       (Some 4) Toy.w0
     = (Ok (repeat ([0; 0]%float, []) 4), World 1%nat [])
  /\ suggest self' (Some 4) Toy.w0 = (Ok [([0; 0]%float, [])], World 1%nat [])
  /\ exists ret w',
       suggest self' (Some 4) Toy.w0 = (Ok ret, w')
       /\ length ret = 1%nat.
Proof.
  intros self self'.
  assert (Hsup : supported_run self').
  { exists (map fst Toy.ten_trials), "y",
           (map (fun t => hd 0%float (snd t)) Toy.ten_trials), tt.
    split; [reflexivity|]. split; [reflexivity|].
    left. split; [reflexivity|].
    split; [exists "qEI"; reflexivity|].
    intros a g. eexists _, _. reflexivity. }
  assert (Hnew : BODesigner_new (Ext:=Toy.collaborators) Toy.problem default_options
                 = Ok self) by (vm_compute; reflexivity).
  destruct (default_designer (Ext:=Toy.collaborators) Toy.problem (self:=self)
              [CallUpdate (Ext:=Toy.collaborators) Toy.ten_trials] Toy.w0
              Hnew (@botorch_in_box _ _) (@to_trials_rows _ _))
    as (_ & _ & _ & _ & _ & _ & Hreturns).
  split; [exact Hnew|].
  split; [apply botorch_in_box|].
  split; [apply to_trials_rows|].
  split; [exact Hsup|].
  split; [vm_compute; reflexivity|].
  split; [vm_compute; reflexivity|].
  exact (Hreturns (Some 4) Toy.w0 ltac:(cbn; lia) Hsup).
Defined.

(** ** The further properties at concrete inputs *)

(** Configuration of a constructed designer, on the instance: a designer
    that asks for NSGA-II, after an [update] and a [suggest]. *)
Lemma constructed_configuration_witness :
  let o := Toy.options 2 1 (AcqfNames ["qEI"; "qUCB"]) "nsgaii" [] in
  let self := Toy.designer o [] in
  let self' := fst (run [CallUpdate (Ext:=Toy.collaborators) Toy.history; CallSuggest None]
                        (self, Toy.w0)) in
  BODesigner_new (Ext:=Toy.collaborators) Toy.problem o = Ok self
  /\ _mll_optimizer self' = "l-bfgs"
  /\ _acqf_optimizer self' = "nsgaii"
  /\ length (_lb self') = 2%nat
  /\ length (_ub self') = 2%nat
  /\ _device self' = "cpu".
Proof.
  intros o self self'.
  assert (Hnew : BODesigner_new (Ext:=Toy.collaborators) Toy.problem o = Ok self)
    by reflexivity.
  destruct (constructed_configuration (Ext:=Toy.collaborators) Toy.problem o
              [CallUpdate (Ext:=Toy.collaborators) Toy.history; CallSuggest None]
              Toy.w0 Hnew)
    as (_ & _ & _ & _ & Hlb & Hub & Hdev).
  split; [exact Hnew|].
  split; [reflexivity|].
  split; [reflexivity|].
  split; [exact Hlb|].
  split; [exact Hub|].
  exact (Hdev eq_refl).
Defined.

(** Adam on the instance: the defaults [mll_lr = None], [mll_epochs = None]
    raise [TypeError]; a negative rate raises [ValueError]; three epochs,
    and a negative number of epochs, return. *)
Lemma optimize_model_adam_witness :
  _mll_optimizer (Toy.adam_designer None None) = "adam"
  /\ (exists msg,
        optimize_model (Toy.adam_designer None None) tt tt [] [] = Raise (TypeError msg))
  /\ (exists msg,
        optimize_model (Toy.adam_designer (Some (-0.5)%float) (Some 0)) tt tt [] []
        = Raise (ValueError msg))
  /\ optimize_model (Toy.adam_designer (Some 0.5%float) (Some 3)) tt tt [] [] = Ok tt
  /\ optimize_model (Toy.adam_designer (Some 0.5%float) (Some (-1))) tt tt [] [] = Ok tt.
Proof.
  split; [reflexivity|].
  split.
  { exact (proj1 (optimize_model_adam (Toy.adam_designer None None) tt tt [] [] eq_refl)
             eq_refl). }
  split.
  { destruct (optimize_model_adam (Toy.adam_designer (Some (-0.5)%float) (Some 0))
                tt tt [] [] eq_refl) as (_ & H & _).
    exact (H (-0.5)%float eq_refl eq_refl). }
  split; [reflexivity|].
  destruct (optimize_model_adam (Toy.adam_designer (Some 0.5%float) (Some (-1)))
              tt tt [] [] eq_refl) as (_ & _ & _ & H & _).
  apply (H 0.5%float (-1) eq_refl eq_refl eq_refl). lia.
Defined.

(** A list of acquisition types under the continuous optimizer, on the
    instance: accepted by the constructor, refused at the first model-based
    [suggest]. *)
Lemma suggest_lbfgs_list_raises_witness :
  let o := Toy.options 2 1 (AcqfNames ["qEI"; "qUCB"]) "l-bfgs" [] in
  let self := Toy.designer o Toy.history in
  BODesigner_new (Ext:=Toy.collaborators) Toy.problem o = Ok (Toy.designer o [])
  /\ _n_init self <= Z.of_nat (length (_trials self))
  /\ suggest self None Toy.w0
     = (Raise (TypeError "'list' object is not callable"), World 1%nat []).
Proof.
  intros o self.
  split; [vm_compute; reflexivity|].
  split; [cbn; lia|].
  exact (proj2 (suggest_lbfgs_list_raises self (names:=["qEI"; "qUCB"])
                  None Toy.w0 (X:=map fst Toy.history) (metric:="y")
                  (y:=[1; 3]%float) (model':=tt)
                  ltac:(cbn; lia) eq_refl eq_refl eq_refl eq_refl)).
Defined.

(** No generation, on the instance: with ['epochs': 0] a single acquisition
    type raises nothing and a batch is returned. *)
Lemma optimize_acqf_no_generation_witness :
  let self := Toy.designer
                (Toy.options 2 2 (AcqfName "qEI") "nsgaii" [("epochs", 0)])
                Toy.history in
  _acqf_optimizer self = "nsgaii"
  /\ dict_get_default String.eqb (_acqf_config self) "epochs" 200 <= 0
  /\ optimize_acqf self (AcqfOne (Ext:=Toy.collaborators) "qEI") Toy.w0
     = next_X_of self Toy.pareto Toy.population (World O [nsgaii_warning])
  /\ optimize_acqf self (AcqfOne (Ext:=Toy.collaborators) "qEI") Toy.w0
     = (Ok [[0.25; 0.5]; [0.75; 0.125]]%float, World 1%nat [nsgaii_warning]).
Proof.
  intros self.
  split; [reflexivity|].
  split; [cbn; lia|].
  split; [|vm_compute; reflexivity].
  exact (optimize_acqf_no_generation self (AcqfOne (Ext:=Toy.collaborators) "qEI") Toy.w0 eq_refl
           ltac:(cbn; lia)).
Defined.

(** NSGA-II with the default 200 generations, on the instance: the empty
    list of acquisition functions raises. *)
Lemma nsgaii_needs_nonempty_list_witness :
  let self := Toy.designer (Toy.options 2 2 (AcqfNames []) "nsgaii" []) Toy.history in
  _acqf_optimizer self = "nsgaii"
  /\ 0 < dict_get_default String.eqb (_acqf_config self) "epochs" 200
  /\ exists w',
       optimize_acqf self (AcqfList (Ext:=Toy.collaborators) []) Toy.w0
       = (Raise (RuntimeError "hstack expects a non-empty TensorList"), w').
Proof.
  intros self.
  split; [reflexivity|].
  split; [cbn; lia|].
  destruct (nsgaii_needs_nonempty_list self (AcqfList (Ext:=Toy.collaborators) []) Toy.w0 eq_refl
              ltac:(cbn; lia)) as (_ & _ & H).
  exact (H eq_refl).
Defined.

(** A converter without metrics, on the instance. *)
Lemma suggest_early_errors_witness :
  let self := Toy.designer_with Toy.no_metric_converter
                (Toy.options 2 1 (AcqfName "qEI") "l-bfgs" []) Toy.history in
  _n_init self <= Z.of_nat (length (_trials self))
  /\ fst (convert (_converter self) (_trials self)) = [(DOUBLE, map fst Toy.history)]
  /\ suggest self None Toy.w0
     = (Raise (ValueError "need at least one array to concatenate"), Toy.w0).
Proof.
  intros self.
  split; [cbn; lia|].
  split; [reflexivity|].
  exact (proj1 (suggest_early_errors self None Toy.w0 (X:=map fst Toy.history)
                  ltac:(cbn; lia) eq_refl) eq_refl).
Defined.

Lemma toy_rows_distinct : NoDup Toy.pareto /\ NoDup Toy.population.
Proof.
  assert (Hne : forall (a b : float) (l l' : list float),
            PrimFloat.eqb a b = false -> PrimFloat.eqb b b = true ->
            a :: l <> b :: l').
  { intros a b l l' Hab Hbb E. inversion E; subst. congruence. }
  split.
  - repeat constructor. intros [].
  - unfold Toy.population. repeat constructor; cbn [In]; intros H;
      repeat match goal with
             | H : _ \/ _ |- _ => destruct H as [H|H]
             | H : False |- _ => contradiction
             | H : _ :: _ = _ :: _ |- _ => revert H; apply Hne; reflexivity
             end.
Qed.

(** Distinct rows, on the instance: one Pareto row, two rows of [diff_X],
    [q = 3]. *)
Lemma next_X_distinct_witness :
  let self := Toy.designer
                (Toy.options 2 3 (AcqfNames ["qEI"; "qUCB"]) "nsgaii" []) Toy.history in
  sample_ok (Ext:=Toy.collaborators)
  /\ NoDup Toy.pareto /\ NoDup Toy.population /\ Forall regular Toy.pareto
  /\ _q self <= Z.of_nat (length Toy.pareto
                          + length (diff_X_of Toy.population Toy.pareto))
  /\ next_X_of self Toy.pareto Toy.population Toy.w0
     = (Ok [[0.25; 0.5]; [0.75; 0.125]; [0.5; 0.75]]%float, World 1%nat [])
  /\ NoDup [[0.25; 0.5]; [0.75; 0.125]; [0.5; 0.75]]%float.
Proof.
  intros self.
  assert (Hreg : Forall regular Toy.pareto) by (repeat constructor; discriminate).
  assert (Hq : _q self <= Z.of_nat (length Toy.pareto
                                    + length (diff_X_of Toy.population Toy.pareto)))
    by (cbn; lia).
  assert (E : next_X_of self Toy.pareto Toy.population Toy.w0
              = (Ok [[0.25; 0.5]; [0.75; 0.125]; [0.5; 0.75]]%float, World 1%nat []))
    by (vm_compute; reflexivity).
  split; [exact sample_first_indices|].
  split; [exact (proj1 toy_rows_distinct)|].
  split; [exact (proj2 toy_rows_distinct)|].
  split; [exact Hreg|].
  split; [exact Hq|].
  split; [exact E|].
  exact (next_X_distinct self Toy.w0 sample_first_indices
           (proj1 toy_rows_distinct) (proj2 toy_rows_distinct) Hreg Hq E).
Defined.

(** The synthetic objective, on the instance: two acquisition names, three
    points. *)
Lemma synthetic_objective_shape_witness :
  let self := Toy.designer
                (Toy.options 2 3 (AcqfNames ["qEI"; "qUCB"]) "nsgaii" []) Toy.history in
  _acqf_type self = AcqfNames ["qEI"; "qUCB"]
  /\ (forall a, length (acqf_call (Collaborators:=Toy.collaborators) a Toy.population)
                = length Toy.population)
  /\ acqf_objective self = [("qEI", MAXIMIZE); ("qUCB", MAXIMIZE)]
  /\ acqf_obj Toy.population (create_acqf self tt [] [])
     = Ok [[0; 0]; [0; 0]; [0; 0]]%float.
Proof.
  intros self.
  split; [reflexivity|].
  split; [intros a; reflexivity|].
  split; [|reflexivity].
  exact (proj1 (synthetic_objective_shape self (names:=["qEI"; "qUCB"]) tt [] []
                  Toy.population eq_refl (fun a => eq_refl))).
Defined.

(** The continuous path, on the instance: [q = 2], two trials in the
    History. *)
Lemma suggest_lbfgs_pipeline_witness :
  let self := Toy.designer (Toy.options 2 2 (AcqfName "qEI") "l-bfgs" []) Toy.history in
  _n_init self <= Z.of_nat (length (_trials self))
  /\ suggest self (Some 5) Toy.w0
     = (Ok [([0; 0]%float, []); ([0; 0]%float, [])], World 1%nat []).
Proof.
  intros self.
  split; [cbn; lia|].
  exact (suggest_lbfgs_pipeline self (name:="qEI") (Some 5) Toy.w0
           (X:=map fst Toy.history) (metric:="y") (y:=[1; 3]%float) (model':=tt)
           ltac:(cbn; lia) eq_refl eq_refl eq_refl eq_refl).
Defined.

(** ** Label standardisation in binary64 *)

(** numpy's summation on ten elements: eight accumulators, then the rest
    (the elements added one by one give [0.9999999999999999]). *)
Example sum_ten_tenths :
  Np.sum (repeat 0x1.999999999999ap-4%float 10) = 1%float
  /\ fold_left PrimFloat.add (repeat 0x1.999999999999ap-4%float 10) 0%float
     = 0x1.fffffffffffffp-1%float.
Proof. split; vm_compute; reflexivity. Qed.



(** Construction on a machine with CUDA: the device string is handed to
    [torch.device], which refuses one it does not know. *)
Example construction_unknown_device :
  let o := {| n_init := 10; q := 1; device := "gpu";
              mean_type := None; mean_config := None;
              kernel_type := None; kernel_config := None;
              mll_optimizer := "l-bfgs"; mll_lr := None; mll_epochs := None;
              acqf_type := AcqfName "qEI"; acqf_optimizer := "l-bfgs";
              acqf_config := [] |} in
  validate o = Ok tt
  /\ exists msg,
       BODesigner_new (Ext:=Toy.cuda_collaborators) Toy.problem o
       = Raise (RuntimeError msg).
Proof. split; [reflexivity|]. eexists. vm_compute. reflexivity. Qed.
